(** * Salaries and layoffs report scripts: a shallow embedding

    The repository holds two report scripts, [project_gm.py] and
    [project_gp.py].  Each one loads [layoffs.csv] and [jobs_in_data.csv],
    cleans the two tables, computes grouped aggregates with pandas, saves
    one image per chart and assembles a slide deck.

    The development is organised as follows:
    - [Py]: the two [str] methods the cleaners call ([strip], [title]);
    - [Pd]: the pandas operations the aggregates are built from;
    - the data model (rows of the two tables, files, slides, process state)
      and a small state-and-exception monad for the scripts;
    - [GM] and [GP]: the two scripts, statement by statement;
    - the properties of the scripts.

    Conventions.  A CSV cell that pandas reads as missing (NaN, NaT) is
    [None].  The counts [total_laid_off] and [salary_in_usd] are integers
    held in float columns; they are modelled as [Z], which is exact as long
    as sums stay below 2^53.  [percentage_laid_off] and [funds_raised] are
    only carried around, never computed with, and are modelled as [Q].
    The proportions of the work-setting chart are genuine binary64
    quotients and are modelled with primitive floats.  Strings are ASCII. *)

From Stdlib Require Import ZArith QArith List Permutation Sorted Ascii String.
From Stdlib Require Import PrimFloat Uint63 FloatOps SpecFloat Lia.
From stdpp Require Import gmap strings list.

Open Scope string_scope.
Open Scope Z_scope.

(* ===================================================================== *)
(** * Python string methods *)
(* ===================================================================== *)

Module Py.

(** [str.isspace] on the ASCII range: TAB, LF, VT, FF, CR, the four
    separators FS, GS, RS, US and the space. *)
Definition isspace (c : ascii) : bool :=
  let n := nat_of_ascii c in
  (Nat.leb 9 n && Nat.leb n 13) || (Nat.leb 28 n && Nat.leb n 32).

Definition isupper (c : ascii) : bool :=
  let n := nat_of_ascii c in Nat.leb 65 n && Nat.leb n 90.

Definition islower (c : ascii) : bool :=
  let n := nat_of_ascii c in Nat.leb 97 n && Nat.leb n 122.

Definition upper (c : ascii) : ascii :=
  if islower c then ascii_of_nat (nat_of_ascii c - 32) else c.

Definition lower (c : ascii) : ascii :=
  if isupper c then ascii_of_nat (nat_of_ascii c + 32) else c.

Fixpoint lstrip (s : string) : string :=
  match s with
  | EmptyString => EmptyString
  | String c s' => if isspace c then lstrip s' else s
  end.

Fixpoint rstrip (s : string) : string :=
  match s with
  | EmptyString => EmptyString
  | String c s' =>
      match rstrip s' with
      | EmptyString => if isspace c then EmptyString else String c EmptyString
      | t => String c t
      end
  end.

(** [s.strip()]: leading and trailing whitespace removed. *)
Definition strip (s : string) : string := rstrip (lstrip s).

(** [s.title()]: a cased character is upper-cased when the character before
    it is not cased and lower-cased when it is; other characters are kept. *)
Fixpoint title_from (previous_is_cased : bool) (s : string) : string :=
  match s with
  | EmptyString => EmptyString
  | String c s' =>
      let cased := isupper c || islower c in
      String (if previous_is_cased then lower c else upper c)
             (title_from cased s')
  end.

Definition title (s : string) : string := title_from false s.

End Py.

(* ===================================================================== *)
(** * pandas operations *)
(* ===================================================================== *)

Module Pd.

(** A Series is kept as the list of its (index label, value) pairs, in
    index order; a NaN value is [None]. *)

Definition notna {V} (v : option V) : bool :=
  match v with Some _ => true | None => false end.

(** [Series.dropna()] *)
Definition dropna {K V} (s : list (K * option V)) : list (K * option V) :=
  List.filter (fun kv => notna (snd kv)) s.

(** [.head(n)] *)
Definition head {A} (n : nat) (l : list A) : list A := firstn n l.

(** Order of two cells under [sort_values(ascending=False)]: greater
    values first, NaN last.  [before leb a b] says that a may stand
    before b. *)
Definition before {V} (leb : V -> V -> bool) (a b : option V) : bool :=
  match a, b with
  | Some x, Some y => leb y x
  | Some _, None => true
  | None, Some _ => false
  | None, None => true
  end.

Fixpoint insert_desc {K V} (leb : V -> V -> bool)
    (kv : K * option V) (s : list (K * option V)) : list (K * option V) :=
  match s with
  | [] => [kv]
  | x :: s' =>
      if before leb (snd kv) (snd x) then kv :: s
      else x :: insert_desc leb kv s'
  end.

(** [sort_values(ascending=False)].  pandas sorts with numpy's quicksort,
    which fixes the order between equal values in a way the scripts do not
    control; the model keeps equal values in index order.  No property
    below depends on how ties are ordered. *)
Definition sort_values_desc {K V} (leb : V -> V -> bool)
    (s : list (K * option V)) : list (K * option V) :=
  fold_right (insert_desc leb) [] s.

Fixpoint insert_by {A} (leb : A -> A -> bool) (x : A) (l : list A) : list A :=
  match l with
  | [] => [x]
  | y :: l' => if leb x y then x :: l else y :: insert_by leb x l'
  end.

(** Ascending sort by [leb]; equal elements keep their order. *)
Definition sort_by {A} (leb : A -> A -> bool) (l : list A) : list A :=
  fold_right (insert_by leb) [] l.

(** Distinct values in order of first appearance ([Series.unique()]). *)
Fixpoint unique {K} `{EqDecision K} (l : list K) : list K :=
  match l with
  | [] => []
  | x :: l' => x :: List.filter (fun y => negb (bool_decide (y = x))) (unique l')
  end.

(** Group labels: the non-missing keys, without repetition, ascending
    ([groupby] sorts its keys and leaves NaN keys out). *)
Definition group_keys {K} `{EqDecision K} (leb : K -> K -> bool)
    (ks : list (option K)) : list K :=
  sort_by leb (unique (omap id ks)).

(** The rows of one group, in table order. *)
Definition group_rows {K R} `{EqDecision K}
    (key : R -> option K) (k : K) (rows : list R) : list R :=
  List.filter (fun r => bool_decide (key r = Some k)) rows.

(** [df.groupby(key)[val].agg()] *)
Definition groupby_agg {K R V W} `{EqDecision K} (leb : K -> K -> bool)
    (key : R -> option K) (val : R -> option V)
    (agg : list (option V) -> option W) (rows : list R)
    : list (K * option W) :=
  List.map (fun k => (k, agg (List.map val (group_rows key k rows))))
           (group_keys leb (List.map key rows)).

(** [.sum()]: NaN cells are skipped, and the sum of no cell at all is 0
    (pandas' [skipna=True], [min_count=0]). *)
Definition sum (vs : list (option Z)) : option Z :=
  Some (fold_right Z.add 0 (omap id vs)).

Fixpoint insert_asc (x : Z) (l : list Z) : list Z :=
  match l with
  | [] => [x]
  | y :: l' => if x <=? y then x :: l else y :: insert_asc x l'
  end.

Definition sort_asc (l : list Z) : list Z := fold_right insert_asc [] l.

(** [.median()]: NaN cells are skipped; the middle value of the sorted
    cells, or the mean of the two middle values; NaN when no cell is left. *)
Definition median (vs : list (option Z)) : option Q :=
  let xs := sort_asc (omap id vs) in
  let half := Nat.div (length xs) 2 in
  let lo := nth (Nat.pred half) xs 0 in
  let hi := nth half xs 0 in
  match xs with
  | [] => None
  | _ =>
      if Nat.even (length xs)
      then Some (Qdiv (Qplus (inject_Z lo) (inject_Z hi)) (inject_Z 2))
      else Some (inject_Z hi)
  end.

Definition count_eq {K} `{EqDecision K} (k : K) (l : list (option K)) : Z :=
  Z.of_nat (length (List.filter (fun v => bool_decide (v = Some k)) l)).

(** [Series.value_counts()]: the number of occurrences of each non-missing
    value, most frequent first. *)
Definition value_counts {K} `{EqDecision K} (col : list (option K))
    : list (K * option Z) :=
  sort_values_desc Z.leb
    (List.map (fun k => (k, Some (count_eq k col))) (unique (omap id col))).

(** The index of a Series. *)
Definition index {K V} (s : list (K * V)) : list K := List.map fst s.

(** [Series.isin(values)], on one cell. *)
Definition isin {K} `{EqDecision K} (v : option K) (values : list K) : bool :=
  match v with
  | Some x => bool_decide (x ∈ values)
  | None => false
  end.

(** Integer to float64 and the quotient of two integer cells, as numpy
    computes [count / total]. *)
Definition to_float (z : Z) : float := PrimFloat.of_uint63 (Uint63.of_Z z).

Definition true_divide (a b : Z) : float :=
  PrimFloat.div (to_float a) (to_float b).

(** A table of counts: one row per row label, one cell per column label. *)
Definition count_table {R C X} `{EqDecision R} `{EqDecision C}
    (rleb : R -> R -> bool) (cleb : C -> C -> bool)
    (row : X -> option R) (col : X -> option C) (xs : list X)
    : list (R * list (C * Z)) :=
  let kept := List.filter (fun x => notna (row x) && notna (col x)) xs in
  let cols := group_keys cleb (List.map col kept) in
  List.map
    (fun r => (r, List.map
       (fun c => (c, Z.of_nat (length
          (List.filter (fun x => bool_decide (row x = Some r)
                                 && bool_decide (col x = Some c)) kept))))
       cols))
    (group_keys rleb (List.map row kept)).

Definition row_total {C} (cells : list (C * Z)) : Z :=
  fold_right Z.add 0 (List.map snd cells).

(** Division of every row by its own total
    ([normalize='index'], [df.div(df.sum(axis=1), axis=0)]). *)
Definition normalize_index {R C} (t : list (R * list (C * Z)))
    : list (R * list (C * float)) :=
  List.map
    (fun rc => (fst rc,
       List.map (fun cz => (fst cz, true_divide (snd cz) (row_total (snd rc))))
                (snd rc)))
    t.

(** [pd.crosstab(rows, cols, normalize='index')]: records with a missing row
    or column label are not counted. *)
Definition crosstab_normalized {R C X} `{EqDecision R} `{EqDecision C}
    (rleb : R -> R -> bool) (cleb : C -> C -> bool)
    (row : X -> option R) (col : X -> option C) (xs : list X)
    : list (R * list (C * float)) :=
  normalize_index (count_table rleb cleb row col xs).

(** Left-to-right float sum of the cells of a row, as the stacked bars
    accumulate them ([bottom += values]). *)
Definition stack_top {C} (cells : list (C * float)) : float :=
  fold_left (fun acc cf => PrimFloat.add acc (snd cf)) cells 0%float.

(** [df.pivot_table(index, columns, values, aggfunc)]: one row per row
    label, one cell per column label; a cell no record falls into is NaN. *)
Definition pivot_table {R C X V W} `{EqDecision R} `{EqDecision C}
    (rleb : R -> R -> bool) (cleb : C -> C -> bool)
    (row : X -> option R) (col : X -> option C) (val : X -> option V)
    (agg : list (option V) -> option W) (xs : list X)
    : list (R * list (C * option W)) :=
  let kept := List.filter (fun x => notna (row x) && notna (col x)) xs in
  let cols := group_keys cleb (List.map col kept) in
  List.map
    (fun r => (r, List.map
       (fun c => (c,
          match List.filter (fun x => bool_decide (row x = Some r)
                                      && bool_decide (col x = Some c)) kept with
          | [] => None
          | g => agg (List.map val g)
          end))
       cols))
    (group_keys rleb (List.map row kept)).

Definition columns {R C W} (t : list (R * list (C * W))) : list C :=
  match t with
  | [] => []
  | rc :: _ => List.map fst (snd rc)
  end.

Fixpoint loc {R A} `{EqDecision R} (r : R) (t : list (R * A)) : option A :=
  match t with
  | [] => None
  | ra :: t' => if decide (fst ra = r) then Some (snd ra) else loc r t'
  end.

(** [df.reindex(labels)]: the rows in the order of [labels]; a label the
    table lacks gets a row of NaN. *)
Definition reindex {R C W} `{EqDecision R} (labels : list R)
    (t : list (R * list (C * option W))) : list (R * list (C * option W)) :=
  List.map
    (fun l => (l, match loc l t with
                  | Some cells => cells
                  | None => List.map (fun c => (c, None)) (columns t)
                  end))
    labels.

(** [df.fillna(0)] on a table of sums. *)
Definition fillna0 {R C} (t : list (R * list (C * option Z)))
    : list (R * list (C * option Z)) :=
  List.map
    (fun rc => (fst rc,
       List.map (fun cv => (fst cv, match snd cv with
                                    | Some v => Some v
                                    | None => Some 0
                                    end)) (snd rc)))
    t.

(** ** Dates *)

Record timestamp := { ts_year : Z; ts_month : Z; ts_day : Z }.

(** What [pd.to_datetime] makes of one cell of a date column: a text it
    converts to a timestamp, an empty cell, or a text it cannot convert.
    Which texts convert is decided by pandas, not by the scripts. *)
Inductive date_cell :=
  | DateText (t : timestamp)
  | DateMissing
  | DateMalformed (raw : string).

Definition malformed (c : date_cell) : bool :=
  match c with DateMalformed _ => true | _ => false end.

(** The converted cell; NaT is [None]. *)
Definition convert (c : date_cell) : option timestamp :=
  match c with DateText t => Some t | _ => None end.

(** [pd.to_datetime(col)] raises on a cell it cannot convert;
    [pd.to_datetime(col, errors="coerce")] turns such a cell into NaT.
    [None] stands for the raised ValueError. *)
Definition to_datetime (coerce : bool) (col : list date_cell)
    : option (list (option timestamp)) :=
  if coerce || negb (existsb malformed col)
  then Some (List.map convert col)
  else None.

Definition digit (n : Z) : ascii :=
  ascii_of_nat (48 + Z.to_nat (n mod 10)).

(** [.dt.to_period('M').astype(str)] on one cell: "YYYY-MM", or "NaT". *)
Definition period_str (d : option timestamp) : string :=
  match d with
  | None => "NaT"
  | Some t =>
      String (digit (ts_year t / 1000)) (String (digit (ts_year t / 100))
        (String (digit (ts_year t / 10)) (String (digit (ts_year t))
          (String "-" (String (digit (ts_month t / 10))
            (String (digit (ts_month t)) EmptyString))))))
  end.

(** Order of two dates under [sort_values("date")]: ascending, NaT last. *)
Definition date_leb (a b : option timestamp) : bool :=
  match a, b with
  | Some x, Some y =>
      (ts_year x <? ts_year y)
      || ((ts_year x =? ts_year y)
          && ((ts_month x <? ts_month y)
              || ((ts_month x =? ts_month y) && (ts_day x <=? ts_day y))))
  | Some _, None => true
  | None, Some _ => false
  | None, None => true
  end.

(** [df.sort_values(col)], ascending; rows with equal keys keep their
    order (see the remark at [sort_values_desc]). *)
Definition sort_rows {A} (leb : A -> A -> bool) (l : list A) : list A :=
  sort_by leb l.

End Pd.

(* ===================================================================== *)
(** * Data model *)
(* ===================================================================== *)

(** One row of [layoffs.csv] as [pd.read_csv] returns it (the columns the
    scripts use). *)
Record layoff_row := {
  company : option string;
  industry : option string;
  country : option string;
  date : Pd.date_cell;
  total_laid_off : option Z;
  percentage_laid_off : option Q;
  funds_raised : option Q;
  stage : option string
}.

(** A layoff row after the date column is converted and the derived
    columns [year], [month] and [year_month] are added. *)
Record layoff := {
  l_row : layoff_row;
  l_date : option Pd.timestamp;
  year : option Z;
  month : option Z;
  year_month : string
}.

Definition derive_dates (r : layoff_row) : layoff :=
  let d := Pd.convert (date r) in
  {| l_row := r;
     l_date := d;
     year := Pd.ts_year <$> d;
     month := Pd.ts_month <$> d;
     year_month := Pd.period_str d |}.

(** One row of [jobs_in_data.csv]. *)
Record job := {
  work_year : option Z;
  job_category : option string;
  experience_level : option string;
  work_setting : option string;
  company_size : option string;
  employee_residence : option string;
  salary_in_usd : option Z
}.

(** The string columns of the jobs table that the cleaners touch. *)
Inductive job_column := JobCategory | ExperienceLevel | WorkSetting | CompanySize.

Definition get_column (c : job_column) (r : job) : option string :=
  match c with
  | JobCategory => job_category r
  | ExperienceLevel => experience_level r
  | WorkSetting => work_setting r
  | CompanySize => company_size r
  end.

Definition set_column (c : job_column) (v : option string) (r : job) : job :=
  {| work_year := work_year r;
     job_category := match c with JobCategory => v | _ => job_category r end;
     experience_level :=
       match c with ExperienceLevel => v | _ => experience_level r end;
     work_setting := match c with WorkSetting => v | _ => work_setting r end;
     company_size := match c with CompanySize => v | _ => company_size r end;
     employee_residence := employee_residence r;
     salary_in_usd := salary_in_usd r |}.

(** [jobs.dropna(subset=["salary_in_usd"])] *)
Definition dropna_salary (jobs : list job) : list job :=
  List.filter (fun r => Pd.notna (salary_in_usd r)) jobs.

(** A table as [pd.read_csv] hands it over: its columns are those of one
    of the two datasets. *)
Inductive dataframe :=
  | DfLayoffs (rows : list layoff_row)
  | DfJobs (rows : list job).

(** A slide: its title, the paragraphs of its text body, and the path of
    the picture placed on it, if any. *)
Record slide := {
  slide_title : string;
  slide_body : list string;
  slide_picture : option string
}.

Inductive file :=
  | Csv (df : dataframe)
  | Png
  | Pptx (slides : list slide).

(** ** Process state

    What a run can read or change: the files, the standard output, the
    environment and the command line, together with the two module-level
    objects the scripts mutate (the presentation [prs] and, in
    [project_gp.py], the dictionary [figure_paths]).  [savefig_log] records
    the paths handed to [plt.savefig], in call order.  Directories are not
    modelled: both scripts create their image directory before writing. *)
Record state := {
  fs : gmap string file;
  stdout : list string;
  environ : gmap string string;
  argv : list string;
  prs : list slide;
  figure_paths : gmap string string;
  savefig_log : list string
}.

Definition set_fs (f : gmap string file -> gmap string file) (s : state) :=
  {| fs := f (fs s); stdout := stdout s; environ := environ s;
     argv := argv s; prs := prs s; figure_paths := figure_paths s;
     savefig_log := savefig_log s |}.

Definition set_stdout (f : list string -> list string) (s : state) :=
  {| fs := fs s; stdout := f (stdout s); environ := environ s;
     argv := argv s; prs := prs s; figure_paths := figure_paths s;
     savefig_log := savefig_log s |}.

Definition set_prs (f : list slide -> list slide) (s : state) :=
  {| fs := fs s; stdout := stdout s; environ := environ s;
     argv := argv s; prs := f (prs s); figure_paths := figure_paths s;
     savefig_log := savefig_log s |}.

Definition set_figure_paths
    (f : gmap string string -> gmap string string) (s : state) :=
  {| fs := fs s; stdout := stdout s; environ := environ s;
     argv := argv s; prs := prs s; figure_paths := f (figure_paths s);
     savefig_log := savefig_log s |}.

Definition set_savefig_log (f : list string -> list string) (s : state) :=
  {| fs := fs s; stdout := stdout s; environ := environ s;
     argv := argv s; prs := prs s; figure_paths := figure_paths s;
     savefig_log := f (savefig_log s) |}.

(** ** Exceptions and the script monad *)

Inductive exn :=
  | FileNotFoundError (path : string)
  | ValueError (what : string)
  | KeyError (column : string).

(** How a computation ends: with a value, with a raised exception, or with
    [exit()]. *)
Inductive outcome (A : Type) :=
  | Returned (a : A)
  | Raised (e : exn)
  | SystemExit.

Arguments Returned {A} a.
Arguments Raised {A} e.
Arguments SystemExit {A}.

Definition M (A : Type) : Type := state -> outcome A * state.

Definition ret {A} (a : A) : M A := fun s => (Returned a, s).

Definition bind {A B} (m : M A) (k : A -> M B) : M B :=
  fun s =>
    match m s with
    | (Returned a, s') => k a s'
    | (Raised e, s') => (Raised e, s')
    | (SystemExit, s') => (SystemExit, s')
    end.

Definition raise {A} (e : exn) : M A := fun s => (Raised e, s).

Definition exit {A} : M A := fun s => (SystemExit, s).

Notation "x <- m ;; k" := (bind m (fun x => k))
  (at level 100, m at next level, right associativity).
Notation "m ;; k" := (bind m (fun _ => k))
  (at level 100, right associativity).

(** [try: body / except ...: handler]: [handler e] is [None] when no
    [except] clause matches [e], which then propagates. *)
Definition try_except {A} (body : M A) (handler : exn -> option (M A)) : M A :=
  fun s =>
    match body s with
    | (Raised e, s') =>
        match handler e with
        | Some h => h s'
        | None => (Raised e, s')
        end
    | r => r
    end.

Definition print (line : string) : M unit :=
  fun s => (Returned tt, set_stdout (fun out => (out ++ [line])%list) s).

(** [pd.read_csv(path)]: FileNotFoundError when there is no such file; a
    file that is not a table makes the parser raise (a ValueError
    subclass). *)
Definition read_csv (path : string) : M dataframe :=
  fun s =>
    match fs s !! path with
    | None => (Raised (FileNotFoundError path), s)
    | Some (Csv df) => (Returned df, s)
    | Some _ => (Raised (ValueError "read_csv"), s)
    end.

(** Access to the columns of the layoffs table; on the other table the
    first column asked for is missing. *)
Definition layoffs_columns (df : dataframe) : M (list layoff_row) :=
  match df with
  | DfLayoffs rows => ret rows
  | DfJobs _ => raise (KeyError "date")
  end.

Definition jobs_columns (df : dataframe) : M (list job) :=
  match df with
  | DfJobs rows => ret rows
  | DfLayoffs _ => raise (KeyError "work_year")
  end.

(** [os.path.join(dir, name)] *)
Definition path_join (dir name : string) : string := dir ++ "/" ++ name.

(** [plt.savefig(path)] *)
Definition savefig (path : string) : M unit :=
  fun s => (Returned tt,
            set_savefig_log (fun log => (log ++ [path])%list)
              (set_fs (fun f => <[path := Png]> f) s)).

(** [os.path.exists(path)] *)
Definition path_exists (path : string) : M bool :=
  fun s => (Returned (bool_decide (is_Some (fs s !! path))), s).

(** [prs = Presentation()] *)
Definition new_presentation : M unit :=
  fun s => (Returned tt, set_prs (fun _ => []) s).

(** [prs.slides.add_slide(...)], with the slide as it is once filled in. *)
Definition add_slide (sl : slide) : M unit :=
  fun s => (Returned tt, set_prs (fun p => (p ++ [sl])%list) s).

(** [prs.save(path)] *)
Definition save_presentation (path : string) : M unit :=
  fun s => (Returned tt, set_fs (fun f => <[path := Pptx (prs s)]> f) s).

(** [jobs["work_year"].astype(int)]: a missing cell cannot be cast. *)
Definition astype_int (jobs : list job) : M (list job) :=
  if forallb (fun r => Pd.notna (work_year r)) jobs
  then ret jobs
  else raise (ValueError "work_year").

(** The date column converted in place and the derived columns added. *)
Definition convert_dates (coerce : bool) (rows : list layoff_row)
    : M (list layoff) :=
  match Pd.to_datetime coerce (List.map date rows) with
  | Some _ => ret (List.map derive_dates rows)
  | None => raise (ValueError "date")
  end.

(** [str(e)] for the exceptions the scripts print. *)
Definition str_exn (e : exn) : string :=
  match e with
  | FileNotFoundError path =>
      "[Errno 2] No such file or directory: '" ++ path ++ "'"
  | ValueError what => what
  | KeyError column => "'" ++ column ++ "'"
  end.

(* ===================================================================== *)
(** * project_gm.py *)
(* ===================================================================== *)

Module GM.

Definition IMG_DIR : string := "project_images".

(** Step 1: the two tables are read inside the only [try] block of the
    script; its single [except] clause names FileNotFoundError. *)
Definition on_error (e : exn) : option (M (dataframe * dataframe)) :=
  match e with
  | FileNotFoundError _ =>
      Some (print ("Error: " ++ str_exn e
                   ++ ". Please ensure csv files are in the folder.") ;;
            exit)
  | _ => None
  end.

Definition load : M (dataframe * dataframe) :=
  print "Step 1: Loading Data..." ;;
  try_except
    (layoffs <- read_csv "layoffs.csv" ;;
     jobs <- read_csv "jobs_in_data.csv" ;;
     ret (layoffs, jobs))
    on_error.

(** [clean_labels(df, col)]: [df[col].str.strip().str.title()] *)
Definition clean_labels (df : list job) (col : job_column) : list job :=
  List.map
    (fun r => set_column col (Py.title <$> (Py.strip <$> get_column col r)) r)
    df.

Definition exp_order : list string :=
  ["Entry-Level"; "Mid-Level"; "Senior"; "Executive"].

(** [.replace({'En': 'Entry-Level', 'Mi': 'Mid-Level', 'Se': 'Senior',
    'Ex': 'Executive'})] on one value. *)
Definition replace_abbreviation (v : string) : string :=
  if decide (v = "En") then "Entry-Level"
  else if decide (v = "Mi") then "Mid-Level"
  else if decide (v = "Se") then "Senior"
  else if decide (v = "Ex") then "Executive"
  else v.

Definition replace_experience (df : list job) : list job :=
  List.map
    (fun r => set_column ExperienceLevel
                (replace_abbreviation <$> experience_level r) r)
    df.

(** The jobs table once [work_year] is cast: rows without salary dropped,
    the three label columns cleaned, the abbreviations spelled out. *)
Definition clean_jobs (jobs : list job) : list job :=
  let jobs := dropna_salary jobs in
  let jobs := clean_labels jobs JobCategory in
  let jobs := clean_labels jobs ExperienceLevel in
  let jobs := clean_labels jobs WorkSetting in
  replace_experience jobs.

(** Step 2. *)
Definition cleaning (dfs : dataframe * dataframe)
    : M (list layoff * list job) :=
  print "Step 2: Cleaning Data..." ;;
  rows <- layoffs_columns (fst dfs) ;;
  layoffs <- convert_dates false rows ;;
  jobs <- jobs_columns (snd dfs) ;;
  jobs <- astype_int jobs ;;
  ret (layoffs, clean_jobs jobs).

Definition save_plot (filename : string) : M unit :=
  savefig (path_join IMG_DIR filename) ;;
  print ("Saved " ++ filename).

(** The data behind the thirteen charts, under the names the script gives
    them, and the cleaned jobs table they are computed from. *)
Record results := {
  jobs : list job;
  monthly_layoffs : list (string * option Z);
  yearly_layoffs : list (Z * option Z);
  top_companies : list (string * option Z);
  ind_layoffs : list (string * option Z);
  perc_data : list (option string * option Q);
  country_layoffs : list (string * option Z);
  salary_hist : list (option Z);
  salary_year : list (Z * option Q);
  exp_salary : list (string * list (option Z));
  country_sal : list (string * option Q);
  ws_counts : list (string * option Z);
  ws_year : list (Z * list (string * float));
  heatmap_data : list (string * list (Z * option Q))
}.

Definition laid_off (r : layoff) : option Z := total_laid_off (l_row r).

(** Step 3: each aggregate is computed and its chart saved. *)
Definition image_generation (layoffs : list layoff) (jobs : list job)
    : M results :=
  print "Step 3: Generating Visualizations..." ;;
  let monthly_layoffs :=
    Pd.dropna (Pd.groupby_agg String.leb (fun r => Some (year_month r))
                 laid_off Pd.sum layoffs) in
  save_plot "Slide_06_LayoffsMonthly.png" ;;
  let yearly_layoffs := Pd.groupby_agg Z.leb year laid_off Pd.sum layoffs in
  save_plot "Slide_07_LayoffsYearly.png" ;;
  let top_companies :=
    Pd.head 15 (Pd.sort_values_desc Z.leb
      (Pd.groupby_agg String.leb (fun r => company (l_row r))
         laid_off Pd.sum layoffs)) in
  save_plot "Slide_08_TopCompanies.png" ;;
  let ind_layoffs :=
    Pd.head 12 (Pd.sort_values_desc Z.leb
      (Pd.groupby_agg String.leb (fun r => industry (l_row r))
         laid_off Pd.sum layoffs)) in
  save_plot "Slide_09_IndustryLayoffs.png" ;;
  let top_inds :=
    Pd.index (Pd.head 8
      (Pd.value_counts (List.map (fun r => industry (l_row r)) layoffs))) in
  let perc_data :=
    List.map (fun r => (industry (l_row r), percentage_laid_off (l_row r)))
      (List.filter (fun r => Pd.isin (industry (l_row r)) top_inds) layoffs) in
  save_plot "Slide_10_PercBoxplot.png" ;;
  let country_layoffs :=
    Pd.head 10 (Pd.sort_values_desc Z.leb
      (Pd.groupby_agg String.leb (fun r => country (l_row r))
         laid_off Pd.sum layoffs)) in
  save_plot "Slide_11_CountryLayoffs.png" ;;
  let salary_hist := List.map salary_in_usd jobs in
  save_plot "Slide_12_SalaryHist.png" ;;
  let salary_year :=
    Pd.groupby_agg Z.leb work_year salary_in_usd Pd.median jobs in
  save_plot "Slide_13_SalaryTrend.png" ;;
  let exp_salary :=
    List.map
      (fun level =>
         (level, List.map salary_in_usd
                   (Pd.group_rows experience_level level jobs)))
      exp_order in
  save_plot "Slide_14_ExpSalary.png" ;;
  let country_sal :=
    Pd.head 10 (Pd.sort_values_desc Qle_bool
      (Pd.groupby_agg String.leb employee_residence salary_in_usd
         Pd.median jobs)) in
  save_plot "Slide_15_CountrySalary.png" ;;
  let ws_counts := Pd.value_counts (List.map work_setting jobs) in
  save_plot "Slide_16_WorkSettingPie.png" ;;
  let ws_year :=
    Pd.crosstab_normalized Z.leb String.leb work_year work_setting jobs in
  save_plot "Slide_17_WorkSettingStack.png" ;;
  let heatmap_data :=
    Pd.reindex exp_order
      (Pd.pivot_table String.leb Z.leb experience_level work_year
         salary_in_usd Pd.median jobs) in
  save_plot "Slide_18_SalaryHeatmap.png" ;;
  ret {| jobs := jobs;
         monthly_layoffs := monthly_layoffs;
         yearly_layoffs := yearly_layoffs;
         top_companies := top_companies;
         ind_layoffs := ind_layoffs;
         perc_data := perc_data;
         country_layoffs := country_layoffs;
         salary_hist := salary_hist;
         salary_year := salary_year;
         exp_salary := exp_salary;
         country_sal := country_sal;
         ws_counts := ws_counts;
         ws_year := ws_year;
         heatmap_data := heatmap_data |}.

(** [add_content_slide(title, bullets, image_filename=None)]: the picture
    is placed only when its file exists. *)
Definition add_content_slide (title : string) (bullets : list string)
    (image_filename : option string) : M unit :=
  picture <-
    match image_filename with
    | Some name =>
        found <- path_exists (path_join IMG_DIR name) ;;
        ret (if found then Some (path_join IMG_DIR name) else None)
    | None => ret None
    end ;;
  add_slide {| slide_title := title;
               slide_body := bullets;
               slide_picture := picture |}.

Definition output_file : string := "Tech_Workforce_Analysis.pptx".

(** Step 4: the title slide, seventeen content slides, and the save. *)
Definition powerpoint_generation : M unit :=
  print "Step 4: Creating PowerPoint..." ;;
  new_presentation ;;
  add_slide {| slide_title := "Visualizing Tech Workforce Dynamics (2020–2025)";
               slide_body := ["Layoffs, Salaries & Global Trends";
                              "Course: Data Visualization";
                              "Student: Mansi Thakrar"];
               slide_picture := None |} ;;
  add_content_slide
    "Why Study Tech Workforce Dynamics?"
    ["Post-COVID tech boom led to over-hiring, followed by corrections.";
     "Analyze resilience of salaries despite market volatility.";
     "Essential for career strategy and understanding global disparities.";
     "Visualization reveals hidden structures in economic data."]
    None ;;
  add_content_slide
    "Datasets Overview"
    ["Dataset 1: Tech Layoffs (Kaggle)";
     " - Timeline: 2020 - 2025";
     " - Fields: Company, Industry, Count, Country";
     "Dataset 2: Data Jobs (Kaggle)";
     " - Timeline: 2020 - 2023";
     " - Fields: Title, Salary, Experience, Work Setting"]
    None ;;
  add_content_slide
    "Tech Layoffs Over Time"
    ["Clear peak in layoffs observed during 2022–2023.";
     "Market stabilization visible post-2024.";
     "Correlates with post-pandemic economic corrections."]
    (Some "Slide_06_LayoffsMonthly.png") ;;
  add_content_slide
    "Layoffs by Year"
    ["Sharp rise in 2022 compared to 2021.";
     "2023 remained high, marking the most volatile period.";
     "2024 shows signs of recovery."]
    (Some "Slide_07_LayoffsYearly.png") ;;
  add_content_slide
    "Top 15 Companies by Layoffs"
    ["Major tech giants (Amazon, Meta, Google) dominate the totals.";
     "Reflects workforce resizing after massive growth phases.";
     "Company-level view highlights systemic industry shifts."]
    (Some "Slide_08_TopCompanies.png") ;;
  add_content_slide
    "Layoffs by Industry"
    ["Retail, Consumer, and Transportation hit hardest.";
     "Hardware and Healthcare also show significant numbers.";
     "Useful for identifying sector-specific risks."]
    (Some "Slide_09_IndustryLayoffs.png") ;;
  add_content_slide
    "Percentage Laid Off Distribution"
    ["High variance within industries.";
     "Boxplots reveal that while totals are high, many companies laid off smaller % of workforce.";
     "Outliers indicate total shutdowns or massive pivots."]
    (Some "Slide_10_PercBoxplot.png") ;;
  add_content_slide
    "Global Layoff Distribution"
    ["United States dominates the dataset.";
     "India, Germany, and UK follow.";
     "Reflects the concentration of tech HQs in the US."]
    (Some "Slide_11_CountryLayoffs.png") ;;
  add_content_slide
    "Salary Distribution (Data Roles)"
    ["Right-skewed distribution.";
     "Most roles cluster between $100k - $150k.";
     "Long tail extends to $400k+, showing high ceiling for specialized roles."]
    (Some "Slide_12_SalaryHist.png") ;;
  add_content_slide
    "Median Salary Growth"
    ["Steady upward trend from 2020 to 2023.";
     "Indicates strong demand for data skills despite broader layoffs.";
     "Resilience of the specific Data/AI sector."]
    (Some "Slide_13_SalaryTrend.png") ;;
  add_content_slide
    "Salary by Experience Level"
    ["Clear stratification: Entry < Mid < Senior < Executive.";
     "Executive roles show highest variance.";
     "Senior roles provide stable, high median compensation."]
    (Some "Slide_14_ExpSalary.png") ;;
  add_content_slide
    "Global Salary Disparities"
    ["US offers highest median salaries.";
     "Significant gap between US and other major tech hubs.";
     "Important factor for remote work strategies."]
    (Some "Slide_15_CountrySalary.png") ;;
  add_content_slide
    "Work Setting Distribution"
    ["In-person and Remote were historically dominant.";
     "Recent trends show shifts in how work is structured.";
     "Visual shows the aggregate composition of the dataset."]
    (Some "Slide_16_WorkSettingPie.png") ;;
  add_content_slide
    "Work Setting Evolution"
    ["Drastic shift during 2020-2021 towards Remote.";
     "2023 shows return to In-person/Hybrid models.";
     "Reflects the 'Return to Office' mandates."]
    (Some "Slide_17_WorkSettingStack.png") ;;
  add_content_slide
    "Salary Heatmap (Exp x Year)"
    ["Matrix view of compensation.";
     "Executive salaries in 2023 show the 'hottest' zones.";
     "Consistent growth across all levels year-over-year."]
    (Some "Slide_18_SalaryHeatmap.png") ;;
  add_content_slide
    "Key Insights"
    ["Layoffs peaked in 2022-23 but salaries in Data roles kept growing.";
     "US market drives both layoffs and highest compensation.";
     "Experience level is the strongest predictor of salary.";
     "Hybrid/In-person work is recovering share from fully remote."]
    None ;;
  add_content_slide
    "Conclusion"
    ["Tech workforce is stabilizing after a volatile correction.";
     "Data Visualization clarifies complex temporal and categorical trends.";
     "Future work: Add 2024 salary data and predictive modeling."]
    None ;;
  save_presentation output_file ;;
  print ("Done! Presentation saved as " ++ output_file).

Definition script : M results :=
  dfs <- load ;;
  tables <- cleaning dfs ;;
  res <- image_generation (fst tables) (snd tables) ;;
  powerpoint_generation ;;
  ret res.

End GM.

(* ===================================================================== *)
(** * project_gp.py *)
(* ===================================================================== *)

Module GP.

Definition FIG_DIR : string := "figures".
Definition PPTX_PATH : string := "Tech_Workforce_Visualization.pptx".

(** The script has no [try] block: the tables are simply read. *)
Definition load : M (dataframe * dataframe) :=
  layoffs <- read_csv "layoffs.csv" ;;
  jobs <- read_csv "jobs_in_data.csv" ;;
  ret (layoffs, jobs).

(** A jobs row with the four [_clean] columns the script adds. *)
Record job_clean := {
  j_row : job;
  job_category_clean : option string;
  experience_level_clean : option string;
  work_setting_clean : option string;
  company_size_clean : option string
}.

(** [jobs[col + "_clean"] = jobs[col].str.strip()], for the four columns. *)
Definition add_clean_columns (r : job) : job_clean :=
  {| j_row := r;
     job_category_clean := Py.strip <$> job_category r;
     experience_level_clean := Py.strip <$> experience_level r;
     work_setting_clean := Py.strip <$> work_setting r;
     company_size_clean := Py.strip <$> company_size r |}.

Definition clean_jobs (jobs : list job) : list job_clean :=
  List.map add_clean_columns (dropna_salary jobs).

(** Preprocessing: dates converted with [errors="coerce"], the table sorted
    by date; [work_year] cast, rows without salary dropped, the [_clean]
    columns added. *)
Definition preprocessing (dfs : dataframe * dataframe)
    : M (list layoff * list job_clean) :=
  rows <- layoffs_columns (fst dfs) ;;
  layoffs <- convert_dates true rows ;;
  let layoffs :=
    Pd.sort_rows (fun a b => Pd.date_leb (l_date a) (l_date b)) layoffs in
  jobs <- jobs_columns (snd dfs) ;;
  jobs <- astype_int jobs ;;
  ret (layoffs, clean_jobs jobs).

(** [save_current_fig(filename)] returns the path it saved to. *)
Definition save_current_fig (filename : string) : M string :=
  let path := path_join FIG_DIR filename in
  savefig path ;;
  ret path.

(** [figure_paths = {}] *)
Definition new_figure_paths : M unit :=
  fun s => (Returned tt, set_figure_paths (fun _ => ∅) s).

(** [figure_paths[key] = save_current_fig(filename)] *)
Definition save_figure (key filename : string) : M unit :=
  path <- save_current_fig filename ;;
  fun s => (Returned tt, set_figure_paths (fun d => <[key := path]> d) s).

Definition exp_order : list string :=
  ["Entry-level"; "Mid-level"; "Senior"; "Executive"].

(** [pd.Categorical(col, categories=exp_order, ordered=True)] on one cell:
    a value outside the categories becomes NaN. *)
Definition categorical (v : option string) : option string :=
  match v with
  | Some x => if bool_decide (x ∈ exp_order) then Some x else None
  | None => None
  end.

Definition set_categorical (r : job_clean) : job_clean :=
  {| j_row := j_row r;
     job_category_clean := job_category_clean r;
     experience_level_clean := categorical (experience_level_clean r);
     work_setting_clean := work_setting_clean r;
     company_size_clean := company_size_clean r |}.

Definition salary (r : job_clean) : option Z := salary_in_usd (j_row r).
Definition laid_off (r : layoff) : option Z := total_laid_off (l_row r).

(** The data behind the sixteen charts, under the names the script gives
    them, and the jobs table as it stands at the end. *)
Record results := {
  jobs : list job_clean;
  monthly_layoffs : list (string * option Z);
  yearly_layoffs : list (Z * option Z);
  company_layoffs : list (string * option Z);
  top_industries : list (string * option Z);
  perc_boxes : list (string * list (option Q));
  top_countries_layoffs : list (string * option Z);
  scatter_groups : list (string * list (option Q * option Z));
  pivot : list (Z * list (Z * option Z));
  salary_distribution : list (option Z);
  yearly_salary : list (Z * option Q);
  salary_by_experience : list (string * list (option Z));
  median_salary_by_category : list (string * option Q);
  setting_counts : list (string * option Z);
  pivot_setting_year_norm : list (Z * list (string * float));
  bottom : list (Z * float);
  pivot_heat : list (string * list (Z * option Q));
  median_salary_by_country : list (string * option Q)
}.

(** The sixteen figures, each aggregate followed by the save of its chart. *)
Definition figure_generation (layoffs : list layoff) (jobs : list job_clean)
    : M results :=
  let monthly_layoffs :=
    Pd.dropna (Pd.groupby_agg String.leb (fun r => Some (year_month r))
                 laid_off Pd.sum layoffs) in
  save_figure "layoffs_monthly" "layoffs_monthly.png" ;;
  let yearly_layoffs :=
    Pd.dropna (Pd.groupby_agg Z.leb year laid_off Pd.sum layoffs) in
  save_figure "layoffs_yearly" "layoffs_yearly.png" ;;
  let company_layoffs :=
    Pd.head 15 (Pd.sort_values_desc Z.leb
      (Pd.dropna (Pd.groupby_agg String.leb (fun r => company (l_row r))
                    laid_off Pd.sum layoffs))) in
  save_figure "layoffs_top_companies" "layoffs_top_companies.png" ;;
  let industry_layoffs :=
    Pd.sort_values_desc Z.leb
      (Pd.dropna (Pd.groupby_agg String.leb (fun r => industry (l_row r))
                    laid_off Pd.sum layoffs)) in
  let top_industries := Pd.head 12 industry_layoffs in
  save_figure "layoffs_industry" "layoffs_industry.png" ;;
  let perc_df :=
    List.filter (fun r => Pd.notna (industry (l_row r))
                          && Pd.notna (percentage_laid_off (l_row r)))
                layoffs in
  let top_industry_names :=
    Pd.index (Pd.head 8
      (Pd.value_counts (List.map (fun r => industry (l_row r)) perc_df))) in
  let perc_df :=
    List.filter (fun r => Pd.isin (industry (l_row r)) top_industry_names)
                perc_df in
  let perc_boxes :=
    List.map
      (fun ind =>
         (ind, List.map (fun r => percentage_laid_off (l_row r))
                 (Pd.group_rows (fun r => industry (l_row r)) ind perc_df)))
      top_industry_names in
  save_figure "layoffs_percentage_industry" "layoffs_percentage_industry.png" ;;
  let country_layoffs :=
    Pd.sort_values_desc Z.leb
      (Pd.dropna (Pd.groupby_agg String.leb (fun r => country (l_row r))
                    laid_off Pd.sum layoffs)) in
  let top_countries_layoffs := Pd.head 10 country_layoffs in
  save_figure "layoffs_country" "layoffs_country.png" ;;
  let scatter_df :=
    List.filter (fun r => Pd.notna (funds_raised (l_row r))
                          && Pd.notna (laid_off r)
                          && Pd.notna (stage (l_row r)))
                layoffs in
  let stages := Pd.unique (omap (fun r => stage (l_row r)) scatter_df) in
  let scatter_groups :=
    List.map
      (fun st =>
         (st, List.map (fun r => (funds_raised (l_row r), laid_off r))
                (Pd.group_rows (fun r => stage (l_row r)) st scatter_df)))
      stages in
  save_figure "layoffs_funds_scatter" "layoffs_funds_scatter.png" ;;
  let heat_df :=
    List.filter (fun r => Pd.notna (year r) && Pd.notna (month r)
                          && Pd.notna (laid_off r))
                layoffs in
  let pivot :=
    Pd.fillna0 (Pd.pivot_table Z.leb Z.leb year month laid_off Pd.sum
                  heat_df) in
  save_figure "layoffs_heatmap_time" "layoffs_heatmap_time.png" ;;
  let salary_distribution := List.map salary jobs in
  save_figure "jobs_salary_distribution" "jobs_salary_distribution.png" ;;
  let yearly_salary :=
    Pd.groupby_agg Z.leb (fun r => work_year (j_row r)) salary Pd.median
      jobs in
  save_figure "jobs_salary_by_year" "jobs_salary_by_year.png" ;;
  let jobs := List.map set_categorical jobs in
  let salary_by_experience :=
    List.filter (fun ls => negb (bool_decide (snd ls = [])))
      (List.map
         (fun level =>
            (level, List.map salary
                      (Pd.group_rows experience_level_clean level jobs)))
         exp_order) in
  save_figure "jobs_salary_by_experience" "jobs_salary_by_experience.png" ;;
  let category_counts := Pd.value_counts (List.map job_category_clean jobs) in
  let top_categories := Pd.index (Pd.head 10 category_counts) in
  let cat_df :=
    List.filter (fun r => Pd.isin (job_category_clean r) top_categories)
                jobs in
  let median_salary_by_category :=
    Pd.sort_values_desc Qle_bool
      (Pd.groupby_agg String.leb job_category_clean salary Pd.median
         cat_df) in
  save_figure "jobs_salary_by_category" "jobs_salary_by_category.png" ;;
  let setting_counts := Pd.value_counts (List.map work_setting_clean jobs) in
  save_figure "jobs_work_setting_pie" "jobs_work_setting_pie.png" ;;
  let pivot_setting_year :=
    Pd.count_table Z.leb String.leb (fun r => work_year (j_row r))
      work_setting_clean jobs in
  let pivot_setting_year_norm := Pd.normalize_index pivot_setting_year in
  let bottom :=
    List.map (fun rc => (fst rc, Pd.stack_top (snd rc)))
             pivot_setting_year_norm in
  save_figure "jobs_work_setting_by_year" "jobs_work_setting_by_year.png" ;;
  let pivot_heat :=
    Pd.reindex exp_order
      (Pd.pivot_table String.leb Z.leb experience_level_clean
         (fun r => work_year (j_row r)) salary Pd.median jobs) in
  save_figure "jobs_salary_heatmap" "jobs_salary_heatmap.png" ;;
  let country_counts_jobs :=
    Pd.value_counts (List.map (fun r => employee_residence (j_row r)) jobs) in
  let top_countries_jobs := Pd.index (Pd.head 10 country_counts_jobs) in
  let country_df_jobs :=
    List.filter
      (fun r => Pd.isin (employee_residence (j_row r)) top_countries_jobs)
      jobs in
  let median_salary_by_country :=
    Pd.sort_values_desc Qle_bool
      (Pd.groupby_agg String.leb (fun r => employee_residence (j_row r))
         salary Pd.median country_df_jobs) in
  save_figure "jobs_salary_by_country" "jobs_salary_by_country.png" ;;
  ret {| jobs := jobs;
         monthly_layoffs := monthly_layoffs;
         yearly_layoffs := yearly_layoffs;
         company_layoffs := company_layoffs;
         top_industries := top_industries;
         perc_boxes := perc_boxes;
         top_countries_layoffs := top_countries_layoffs;
         scatter_groups := scatter_groups;
         pivot := pivot;
         salary_distribution := salary_distribution;
         yearly_salary := yearly_salary;
         salary_by_experience := salary_by_experience;
         median_salary_by_category := median_salary_by_category;
         setting_counts := setting_counts;
         pivot_setting_year_norm := pivot_setting_year_norm;
         bottom := bottom;
         pivot_heat := pivot_heat;
         median_salary_by_country := median_salary_by_country |}.

(** [add_title_and_content(title, bullets=None, image_key=None)]: the
    picture is placed when the key is in [figure_paths]. *)
Definition add_title_and_content (title : string) (bullets : list string)
    (image_key : option string) : M unit :=
  picture <-
    match image_key with
    | Some key => fun s => (Returned (figure_paths s !! key), s)
    | None => ret None
    end ;;
  add_slide {| slide_title := title;
               slide_body := bullets;
               slide_picture := picture |}.

(** The twenty slides and the save. *)
Definition powerpoint_generation : M unit :=
  new_presentation ;;
  add_title_and_content
    "Visualizing Tech Workforce Dynamics (2020–2025)"
    ["Exploring tech layoffs and data job markets using two Kaggle datasets.";
     "Visualizations created in Python using Matplotlib and Seaborn."]
    None ;;
  add_title_and_content
    "Why Study Tech Workforce Dynamics?"
    ["Post-COVID hiring surge followed by large-scale tech layoffs.";
     "Data and tech roles remain high-paying despite volatility.";
     "Visualizations reveal temporal, geographic, and role-based patterns."]
    None ;;
  add_title_and_content
    "Datasets Used"
    ["Tech Layoffs: 4,202 rows, 11 columns (company, industry, layoffs, % laid off, date, country, funding).";
     "Data Jobs: 9,355 rows, 12 columns (job title, category, salary, experience level, work setting, location).";
     "Time coverage: layoffs 2020–2025, data jobs 2020–2023."]
    None ;;
  add_title_and_content
    "Tech Layoffs Over Time"
    ["Monthly totals highlight peaks in 2022–2023.";
     "Decline after 2024 suggests partial market stabilization."]
    (Some "layoffs_monthly") ;;
  add_title_and_content
    "Yearly Layoff Totals"
    ["Aggregate view of layoffs by calendar year.";
     "Summarizes the overall magnitude of the correction period."]
    (Some "layoffs_yearly") ;;
  add_title_and_content
    "Companies with the Highest Layoffs"
    ["Top 15 companies account for a large share of total layoffs.";
     "Concentration of cuts among major tech firms."]
    (Some "layoffs_top_companies") ;;
  add_title_and_content
    "Layoffs by Industry"
    ["Certain industries such as consumer tech and HR tech are more affected.";
     "Industry-level trends support risk assessment for workers and investors."]
    (Some "layoffs_industry") ;;
  add_title_and_content
    "Layoff Percentage by Industry"
    ["Boxplots show how severely companies cut within each industry.";
     "Some industries lay off a large share of staff even when totals are modest."]
    (Some "layoffs_percentage_industry") ;;
  add_title_and_content
    "Layoffs by Country"
    ["The United States dominates global tech layoffs.";
     "Other countries show smaller but meaningful layoff counts."]
    (Some "layoffs_country") ;;
  add_title_and_content
    "Funding Versus Layoffs"
    ["Relationship between funds raised and number of employees laid off.";
     "Well-funded companies are not immune to workforce reductions."]
    (Some "layoffs_funds_scatter") ;;
  add_title_and_content
    "Layoffs Heatmap by Year and Month"
    ["Heatmap emphasizes intensity and timing of layoffs.";
     "Supports quick identification of peaks across years."]
    (Some "layoffs_heatmap_time") ;;
  add_title_and_content
    "Salary Distribution in Data Roles"
    ["Salaries are right-skewed with many roles between roughly $100k and $160k.";
     "A long upper tail indicates highly paid senior or specialized positions."]
    (Some "jobs_salary_distribution") ;;
  add_title_and_content
    "Median Salary Over Time"
    ["Median salaries increase from 2020 to 2023.";
     "Suggests sustained demand for data professionals even during layoff periods."]
    (Some "jobs_salary_by_year") ;;
  add_title_and_content
    "Salary by Experience Level"
    ["Mountain-style densities show clear separation by experience level.";
     "Senior and executive roles have higher and wider salary distributions."]
    (Some "jobs_salary_by_experience") ;;
  add_title_and_content
    "Median Salary by Job Category"
    ["Certain job categories command higher median pay.";
     "Helps identify which specialties provide stronger compensation."]
    (Some "jobs_salary_by_category") ;;
  add_title_and_content
    "Work Setting Distribution"
    ["Pie chart compares remote, hybrid, and in-person roles.";
     "Illustrates how workplace expectations differ across data jobs."]
    (Some "jobs_work_setting_pie") ;;
  add_title_and_content
    "Work Setting Over Time"
    ["Stacked bars show the shift from fully remote toward hybrid arrangements.";
     "Captures post-pandemic normalization of on-site work."]
    (Some "jobs_work_setting_by_year") ;;
  add_title_and_content
    "Salary Heatmap by Experience Level and Year"
    ["Heatmap displays median salaries across experience levels over time.";
     "Helps compare how pay evolves for junior versus senior roles."]
    (Some "jobs_salary_heatmap") ;;
  add_title_and_content
    "Median Salary by Country"
    ["Lollipop chart underscores cross-country differences in compensation.";
     "The United States leads, with several European countries close behind."]
    (Some "jobs_salary_by_country") ;;
  add_title_and_content
    "Key Takeaways"
    ["Tech layoffs peaked in 2022–2023, yet data salaries continued to grow.";
     "Geographic and industry patterns reveal where risks and opportunities lie.";
     "Visualization choices (line, heatmap, mountain, lollipop) shape how patterns are perceived."]
    None ;;
  save_presentation PPTX_PATH ;;
  print ("Saved PowerPoint to " ++ PPTX_PATH).

Definition script : M results :=
  dfs <- load ;;
  tables <- preprocessing dfs ;;
  new_figure_paths ;;
  res <- figure_generation (fst tables) (snd tables) ;;
  powerpoint_generation ;;
  ret res.

End GP.

(* ===================================================================== *)
(** * Vocabulary of the properties *)
(* ===================================================================== *)

(** The two input tables of a state. *)
Definition inputs (s : state) (lrows : list layoff_row) (jrows : list job)
    : Prop :=
  fs s !! "layoffs.csv" = Some (Csv (DfLayoffs lrows)) /\
  fs s !! "jobs_in_data.csv" = Some (Csv (DfJobs jrows)).

(** One of the two input files is absent. *)
Definition missing_input (s : state) : Prop :=
  fs s !! "layoffs.csv" = None \/ fs s !! "jobs_in_data.csv" = None.

(** [path] is the input file whose absence stops the loading step: the
    layoffs file, or the jobs file once the layoffs file has been read. *)
Definition first_missing (s : state) (path : string) : Prop :=
  (fs s !! "layoffs.csv" = None /\ path = "layoffs.csv") \/
  ((exists df, fs s !! "layoffs.csv" = Some (Csv df)) /\
   fs s !! "jobs_in_data.csv" = None /\ path = "jobs_in_data.csv").



Definition no_malformed_date (lrows : list layoff_row) : Prop :=
  existsb Pd.malformed (List.map date lrows) = false.

Definition work_years_present (jrows : list job) : Prop :=
  forallb (fun r => Pd.notna (work_year r)) jrows = true.

(** A run that ends by a handled exit after printing something. *)
Definition caught_and_handled {A} (script : M A) (s : state) : Prop :=
  exists s', script s = (SystemExit, s') /\ stdout s' <> stdout s.

(** The line [project_gm.py] prints when [path] is missing. *)
Definition GM_error_message (path : string) : string :=
  "Error: " ++ str_exn (FileNotFoundError path)
  ++ ". Please ensure csv files are in the folder.".

(** The state [project_gm.py] exits in when [path] is missing. *)
Definition GM_exit_state (path : string) (s : state) : state :=
  set_stdout
    (fun out =>
       (out ++ ["Step 1: Loading Data..."; GM_error_message path])%list)
    s.

(** A state that holds nothing. *)
Definition blank : state :=
  {| fs := ∅; stdout := []; environ := ∅; argv := []; prs := [];
     figure_paths := ∅; savefig_log := [] |}.

(** The layoffs table of [project_gp.py] after preprocessing. *)
Definition GP_layoffs (lrows : list layoff_row) : list layoff :=
  Pd.sort_rows (fun a b => Pd.date_leb (l_date a) (l_date b))
    (List.map derive_dates lrows).

(** How [project_gm.py] ends, read off the two input files. *)
Definition GM_outcome (lf jf : option file) : outcome GM.results :=
  match lf with
  | None => SystemExit
  | Some (Csv l) =>
      match jf with
      | None => SystemExit
      | Some (Csv j) =>
          match l with
          | DfJobs _ => Raised (KeyError "date")
          | DfLayoffs lrows =>
              if existsb Pd.malformed (List.map date lrows)
              then Raised (ValueError "date")
              else
                match j with
                | DfLayoffs _ => Raised (KeyError "work_year")
                | DfJobs jrows =>
                    if forallb (fun r => Pd.notna (work_year r)) jrows
                    then fst (GM.image_generation
                                (List.map derive_dates lrows)
                                (GM.clean_jobs jrows) blank)
                    else Raised (ValueError "work_year")
                end
          end
      | Some _ => Raised (ValueError "read_csv")
      end
  | Some _ => Raised (ValueError "read_csv")
  end.

(** How [project_gp.py] ends, read off the two input files. *)
Definition GP_outcome (lf jf : option file) : outcome GP.results :=
  match lf with
  | None => Raised (FileNotFoundError "layoffs.csv")
  | Some (Csv l) =>
      match jf with
      | None => Raised (FileNotFoundError "jobs_in_data.csv")
      | Some (Csv j) =>
          match l with
          | DfJobs _ => Raised (KeyError "date")
          | DfLayoffs lrows =>
              match j with
              | DfLayoffs _ => Raised (KeyError "work_year")
              | DfJobs jrows =>
                  if forallb (fun r => Pd.notna (work_year r)) jrows
                  then fst (GP.figure_generation (GP_layoffs lrows)
                              (GP.clean_jobs jrows) blank)
                  else Raised (ValueError "work_year")
              end
          end
      | Some _ => Raised (ValueError "read_csv")
      end
  | Some _ => Raised (ValueError "read_csv")
  end.

(** The names of the chart files of [project_gm.py], in script order. *)
Definition GM_chart_files : list string :=
  ["Slide_06_LayoffsMonthly.png"; "Slide_07_LayoffsYearly.png";
   "Slide_08_TopCompanies.png"; "Slide_09_IndustryLayoffs.png";
   "Slide_10_PercBoxplot.png"; "Slide_11_CountryLayoffs.png";
   "Slide_12_SalaryHist.png"; "Slide_13_SalaryTrend.png";
   "Slide_14_ExpSalary.png"; "Slide_15_CountrySalary.png";
   "Slide_16_WorkSettingPie.png"; "Slide_17_WorkSettingStack.png";
   "Slide_18_SalaryHeatmap.png"].

Definition GM_chart_paths : list string :=
  List.map (path_join GM.IMG_DIR) GM_chart_files.

(** The dictionary keys and file names of the figures of [project_gp.py],
    in script order. *)
Definition GP_figures : list (string * string) :=
  [("layoffs_monthly", "layoffs_monthly.png");
   ("layoffs_yearly", "layoffs_yearly.png");
   ("layoffs_top_companies", "layoffs_top_companies.png");
   ("layoffs_industry", "layoffs_industry.png");
   ("layoffs_percentage_industry", "layoffs_percentage_industry.png");
   ("layoffs_country", "layoffs_country.png");
   ("layoffs_funds_scatter", "layoffs_funds_scatter.png");
   ("layoffs_heatmap_time", "layoffs_heatmap_time.png");
   ("jobs_salary_distribution", "jobs_salary_distribution.png");
   ("jobs_salary_by_year", "jobs_salary_by_year.png");
   ("jobs_salary_by_experience", "jobs_salary_by_experience.png");
   ("jobs_salary_by_category", "jobs_salary_by_category.png");
   ("jobs_work_setting_pie", "jobs_work_setting_pie.png");
   ("jobs_work_setting_by_year", "jobs_work_setting_by_year.png");
   ("jobs_salary_heatmap", "jobs_salary_heatmap.png");
   ("jobs_salary_by_country", "jobs_salary_by_country.png")].

Definition GP_chart_paths : list string :=
  List.map (fun kf => path_join GP.FIG_DIR (snd kf)) GP_figures.

(** Files written one after the other. *)
Definition write_images (paths : list string) (f : gmap string file)
    : gmap string file :=
  fold_left (fun f p => <[p := Png]> f) paths f.

Definition record_figures (kfs : list (string * string))
    (d : gmap string string) : gmap string string :=
  fold_left (fun d kf => <[fst kf := path_join GP.FIG_DIR (snd kf)]> d) kfs d.

(** One jobs row as [project_gm.py] leaves it. *)
Definition GM_clean_row (r : job) : job :=
  {| work_year := work_year r;
     job_category := Py.title <$> (Py.strip <$> job_category r);
     experience_level :=
       GM.replace_abbreviation
         <$> (Py.title <$> (Py.strip <$> experience_level r));
     work_setting := Py.title <$> (Py.strip <$> work_setting r);
     company_size := company_size r;
     employee_residence := employee_residence r;
     salary_in_usd := salary_in_usd r |}.









(** The rational number a finite float stands for. *)
Definition exact (f : float) : Q :=
  match Prim2SF f with
  | S754_finite sgn m e =>
      let n := if sgn then Z.neg m else Z.pos m in
      if 0 <=? e then inject_Z (n * 2 ^ e)
      else Qmake n (Pos.pow 2 (Z.to_pos (- e)))
  | _ => 0%Q
  end.




(* ===================================================================== *)
(** * Sample inputs *)
(* ===================================================================== *)

Definition on_day (y m d : Z) : Pd.date_cell :=
  Pd.DateText {| Pd.ts_year := y; Pd.ts_month := m; Pd.ts_day := d |}.

Definition layoff_of (c i k : string) (d : Pd.date_cell) (n : option Z)
    : layoff_row :=
  {| company := Some c; industry := Some i; country := Some k; date := d;
     total_laid_off := n; percentage_laid_off := None;
     funds_raised := None; stage := None |}.

Definition job_of (y : Z) (cat level setting : string) (pay : option Z)
    : job :=
  {| work_year := Some y; job_category := Some cat;
     experience_level := Some level; work_setting := Some setting;
     company_size := Some "M"; employee_residence := Some "United States";
     salary_in_usd := pay |}.

(** Four layoff events; Birch never reported a head count. *)
Definition sample_layoffs : list layoff_row :=
  [layoff_of "Acme" "Retail" "United States" (on_day 2023 1 15) (Some 100);
   layoff_of "Birch" "Finance" "India" (on_day 2022 11 3) None;
   layoff_of "Acme" "Retail" "United States" (on_day 2023 2 10) (Some 50);
   layoff_of "Cedar" "Finance" "India" (on_day 2021 11 20) (Some 30)].

(** The same table with one more event whose date is not a date. *)
Definition sample_layoffs_bad_date : list layoff_row :=
  (sample_layoffs
   ++ [layoff_of "Dune" "Media" "Canada" (Pd.DateMalformed "soon") (Some 5)])%list.

(** Five job records: one without salary, one with an unlisted level. *)
Definition sample_jobs : list job :=
  [job_of 2020 " data science " "Entry-level" "Hybrid" (Some 100);
   job_of 2020 "Data Engineering" "SE" "Remote" None;
   job_of 2021 "Data Engineering" "Senior" "Remote" (Some 300);
   job_of 2020 "Data Engineering" "Intern" "Remote" (Some 60);
   job_of 2021 "Leadership" "Executive" "In-person" (Some 500)].


(** A state whose only files are the two tables. *)
Definition state_with (lrows : list layoff_row) (jrows : list job) : state :=
  {| fs := <["layoffs.csv" := Csv (DfLayoffs lrows)]>
             (<["jobs_in_data.csv" := Csv (DfJobs jrows)]> ∅);
     stdout := []; environ := ∅; argv := []; prs := [];
     figure_paths := ∅; savefig_log := [] |}.



(** Only the layoffs table is there. *)
Definition state_without_jobs : state :=
  {| fs := {["layoffs.csv" := Csv (DfLayoffs sample_layoffs)]};
     stdout := []; environ := ∅; argv := []; prs := [];
     figure_paths := ∅; savefig_log := [] |}.



(** ** Further vocabulary *)

(** Every character of [s] is whitespace. *)
Definition all_space (s : string) : bool :=
  forallb Py.isspace (list_ascii_of_string s).








(** A layoff row with its share of the workforce, its funding and its
    stage filled in. *)
Definition with_funding (pct : option Q) (funds : option Q)
    (st : option string) (r : layoff_row) : layoff_row :=
  {| company := company r; industry := industry r; country := country r;
     date := date r; total_laid_off := total_laid_off r;
     percentage_laid_off := pct; funds_raised := funds; stage := st |}.

(** The four sample events with these columns: Birch reports a share but
    no head count, the second Acme event neither share nor funding. *)
Definition sample_layoffs_funded : list layoff_row :=
  [with_funding (Some (1 # 10)) (Some (120 # 1)) (Some "Post-IPO")
     (layoff_of "Acme" "Retail" "United States" (on_day 2023 1 15) (Some 100));
   with_funding (Some (1 # 2)) (Some (5 # 1)) (Some "Series B")
     (layoff_of "Birch" "Finance" "India" (on_day 2022 11 3) None);
   with_funding None None (Some "Post-IPO")
     (layoff_of "Acme" "Retail" "United States" (on_day 2023 2 10) (Some 50));
   with_funding (Some (1 # 4)) (Some (30 # 1)) (Some "Series B")
     (layoff_of "Cedar" "Finance" "India" (on_day 2021 11 20) (Some 30))].

Definition state_funded : state := state_with sample_layoffs_funded sample_jobs.


(** Unfolding of the script monad: [unfold_monad] for a step or two on an
    abstract state, [run_script] for whole scripts on a state given by its
    fields. *)
Ltac unfold_monad :=
  cbv [bind ret raise exit try_except print read_csv layoffs_columns
       jobs_columns savefig path_exists new_presentation add_slide
       save_presentation astype_int convert_dates
       set_fs set_stdout set_prs set_figure_paths set_savefig_log];
  cbn [fs stdout environ argv prs figure_paths savefig_log].

Ltac run_script :=
  cbv [bind ret raise exit try_except print read_csv layoffs_columns
       jobs_columns savefig path_exists new_presentation add_slide
       save_presentation astype_int convert_dates
       set_fs set_stdout set_prs set_figure_paths set_savefig_log
       fs stdout environ argv prs figure_paths savefig_log].


(** [String.append] on a string that starts with a known character. *)
Ltac string_app :=
  repeat match goal with
  | |- context [String ?c ?a ++ ?b] =>
      change (String c a ++ b) with (String c (a ++ b))
  | |- context [EmptyString ++ ?b] => change (EmptyString ++ b) with b
  end.


(* ===================================================================== *)
(** * Facts about the pandas operations *)
(* ===================================================================== *)

Section SortFacts.
Context {A : Type}.
Variable leb : A -> A -> bool.

Lemma insert_by_perm (x : A) (l : list A) :
  Permutation (Pd.insert_by leb x l) (x :: l).
Proof.
  induction l as [|y l IH]; simpl; [reflexivity|].
  destruct (leb x y); [reflexivity|].
  rewrite IH. apply perm_swap.
Qed.

Lemma sort_by_perm (l : list A) : Permutation (Pd.sort_by leb l) l.
Proof.
  unfold Pd.sort_by.
  induction l as [|x l IH]; simpl; [reflexivity|].
  rewrite insert_by_perm. now constructor.
Qed.
Lemma sort_rows_perm (l : list A) : Permutation (Pd.sort_rows leb l) l.
Proof. apply sort_by_perm. Qed.
End SortFacts.

Section UniqueFacts.
Context {K : Type} `{EqDecision K}.

Lemma in_unique (x : K) (l : list K) : In x (Pd.unique l) <-> In x l.
Proof.
  induction l as [|y l IH]; simpl; [tauto|].
  rewrite filter_In, IH, negb_true_iff, bool_decide_eq_false.
  destruct (decide (x = y)) as [->|Hne]; [tauto|].
  split; [intros [H|H]; [auto | tauto] | intros [H|H]; [auto|]].
  right. auto.
Qed.

Lemma NoDup_filter_list (f : K -> bool) (l : list K) :
  List.NoDup l -> List.NoDup (List.filter f l).
Proof.
  induction 1 as [|x l Hx Hl IH]; simpl; [constructor|].
  destruct (f x); [constructor|]; auto.
  intros H. apply filter_In in H. tauto.
Qed.

Lemma NoDup_unique (l : list K) : List.NoDup (Pd.unique l).
Proof.
  induction l as [|y l IH]; simpl; constructor.
  - rewrite filter_In, negb_true_iff, bool_decide_eq_false. tauto.
  - now apply NoDup_filter_list.
Qed.
End UniqueFacts.

Section GroupFacts.
Context {K : Type} `{EqDecision K}.
Variable leb : K -> K -> bool.




Lemma in_group_rows {R} (key : R -> option K) k (rows : list R) r :
  In r (Pd.group_rows key k rows) <-> In r rows /\ key r = Some k.
Proof.
  unfold Pd.group_rows. rewrite filter_In, bool_decide_eq_true. tauto.
Qed.
End GroupFacts.



Lemma in_head {A} (n : nat) (l : list A) x : In x (Pd.head n l) -> In x l.
Proof.
  intros H. rewrite <- (firstn_skipn n l). apply in_or_app. now left.
Qed.



Lemma filter_perm {A} (f : A -> bool) (l1 l2 : list A) :
  Permutation l1 l2 -> Permutation (List.filter f l1) (List.filter f l2).
Proof.
  induction 1 as [|x l1 l2 _ IH|x y l|l1 l2 l3 _ IH1 _ IH2]; simpl.
  - constructor.
  - destruct (f x); auto.
  - destruct (f x), (f y); auto. apply perm_swap.
  - etransitivity; eauto.
Qed.

Section SortDescFacts.
Context {K V : Type}.
Variable leb : V -> V -> bool.
Hypothesis leb_total : forall x y, leb x y = true \/ leb y x = true.
Hypothesis leb_trans :
  forall x y z, leb x y = true -> leb y z = true -> leb x z = true.



Lemma insert_desc_perm (kv : K * option V) s :
  Permutation (Pd.insert_desc leb kv s) (kv :: s).
Proof.
  induction s as [|x s IH]; simpl; [reflexivity|].
  destruct (Pd.before leb (snd kv) (snd x)); [reflexivity|].
  rewrite IH. apply perm_swap.
Qed.

Lemma sort_values_desc_perm (s : list (K * option V)) :
  Permutation (Pd.sort_values_desc leb s) s.
Proof.
  unfold Pd.sort_values_desc.
  induction s as [|x s IH]; simpl; [reflexivity|].
  rewrite insert_desc_perm. now constructor.
Qed.




End SortDescFacts.

(* ===================================================================== *)
(** * Facts about the runs *)
(* ===================================================================== *)

Lemma bind_returned {A B} (m : M A) (k : A -> M B) s a s' :
  m s = (Returned a, s') -> bind m k s = k a s'.
Proof. unfold bind. now intros ->. Qed.

Lemma bind_unfold {A B} (m : M A) (k : A -> M B) s :
  bind m k s = match m s with
               | (Returned a, s1) => k a s1
               | (Raised e, s1) => (Raised e, s1)
               | (SystemExit, s1) => (SystemExit, s1)
               end.
Proof. reflexivity. Qed.

Lemma bind_inv {A B} (m : M A) (k : A -> M B) s b s' :
  bind m k s = (Returned b, s') ->
  exists a s1, m s = (Returned a, s1) /\ k a s1 = (Returned b, s').
Proof.
  unfold bind. destruct (m s) as [[a|e|] s1]; intros H; try discriminate.
  eauto.
Qed.

(** ** project_gm.py *)

Lemma GM_load_inv s dfs s1 :
  GM.load s = (Returned dfs, s1) ->
  exists l j, fs s !! "layoffs.csv" = Some (Csv l) /\
              fs s !! "jobs_in_data.csv" = Some (Csv j) /\
              dfs = (l, j) /\ fs s1 = fs s /\ savefig_log s1 = savefig_log s.
Proof.
  unfold GM.load, GM.on_error. unfold_monad.
  destruct (fs s !! "layoffs.csv") as [[l| |]|]; unfold_monad;
    try discriminate.
  destruct (fs s !! "jobs_in_data.csv") as [[j| |]|]; unfold_monad;
    try discriminate.
  intros H. inversion H; subst. exists l, j. auto.
Qed.

Lemma GM_cleaning_inv dfs s tables s1 :
  GM.cleaning dfs s = (Returned tables, s1) ->
  exists lrows jrows,
    dfs = (DfLayoffs lrows, DfJobs jrows) /\
    no_malformed_date lrows /\ work_years_present jrows /\
    tables = (List.map derive_dates lrows, GM.clean_jobs jrows) /\
    fs s1 = fs s /\ savefig_log s1 = savefig_log s.
Proof.
  unfold GM.cleaning, no_malformed_date, work_years_present.
  unfold_monad. cbv [Pd.to_datetime]. cbn [orb].
  destruct dfs as [[lrows|?] [?|jrows]]; cbn [fst snd]; unfold_monad;
    try discriminate;
    try (destruct (existsb Pd.malformed (List.map date lrows));
         cbn [negb]; unfold_monad; discriminate).
  destruct (existsb Pd.malformed (List.map date lrows)) eqn:Em;
    cbn [negb]; unfold_monad; try discriminate.
  destruct (forallb _ jrows) eqn:E; unfold_monad; try discriminate.
  intros H. inversion H; subst. exists lrows, jrows. repeat split; auto.
Qed.

Lemma GM_image_generation_total l j s :
  exists r s', GM.image_generation l j s = (Returned r, s').
Proof.
  destruct s. unfold GM.image_generation, GM.save_plot. run_script. eauto.
Qed.

Lemma GM_image_generation_state l j s r s' :
  GM.image_generation l j s = (Returned r, s') ->
  fs s' = write_images GM_chart_paths (fs s) /\
  savefig_log s' = (savefig_log s ++ GM_chart_paths)%list /\
  prs s' = prs s.
Proof.
  destruct s. unfold GM.image_generation, GM.save_plot. run_script.
  intros H. injection H as _ <-.
  cbn [fs savefig_log prs].
  repeat split.
  unfold GM_chart_paths, GM_chart_files. cbn [List.map].
  rewrite <- !app_assoc. reflexivity.
Qed.

(** The returned aggregates do not depend on the state. *)
Lemma GM_image_generation_pure l j s1 s2 :
  fst (GM.image_generation l j s1) = fst (GM.image_generation l j s2).
Proof.
  destruct s1, s2. unfold GM.image_generation, GM.save_plot. run_script.
  reflexivity.
Qed.

Lemma GM_powerpoint_generation_run s :
  Forall (fun p => is_Some (fs s !! p)) GM_chart_paths ->
  exists s',
    GM.powerpoint_generation s = (Returned tt, s') /\
    fs s' = <[GM.output_file := Pptx (prs s')]> (fs s) /\
    savefig_log s' = savefig_log s /\
    length (prs s') = 18%nat /\
    omap slide_picture (prs s') = GM_chart_paths.
Proof.
  destruct s as [f out env args p fp log].
  unfold GM_chart_paths, GM_chart_files. cbn [List.map fs].
  intros H.
  repeat match goal with
         | H : Forall _ (_ :: _) |- _ =>
             let H1 := fresh "Hp" in
             apply Forall_cons_1 in H; destruct H as [H1 H]
         end.
  unfold GM.powerpoint_generation, GM.add_content_slide. run_script.
  rewrite !bool_decide_eq_true_2 by assumption.
  eexists. split; [reflexivity|].
  cbn [fs savefig_log prs]. repeat split.
Qed.

Lemma lookup_write_images_other paths (f : gmap string file) p :
  ~ In p paths -> write_images paths f !! p = f !! p.
Proof.
  unfold write_images. revert f.
  induction paths as [|q paths IH]; intros f Hp; simpl; [reflexivity|].
  rewrite IH by (intros H; apply Hp; now right).
  apply lookup_insert_ne. intros ->. apply Hp. now left.
Qed.

Lemma lookup_write_images paths (f : gmap string file) p :
  In p paths -> write_images paths f !! p = Some Png.
Proof.
  unfold write_images. revert f.
  induction paths as [|q paths IH]; intros f; simpl; [tauto|].
  intros [->|Hp].
  - destruct (in_dec string_dec p paths) as [Hin|Hout]; [now apply IH|].
    fold (write_images paths (<[p:=Png]> f)).
    rewrite lookup_write_images_other by assumption.
    apply lookup_insert_eq.
  - now apply IH.
Qed.

Lemma GM_load_ok s l j :
  fs s !! "layoffs.csv" = Some (Csv l) ->
  fs s !! "jobs_in_data.csv" = Some (Csv j) ->
  GM.load s
  = (Returned (l, j),
     set_stdout (fun out => (out ++ ["Step 1: Loading Data..."])%list) s).
Proof.
  intros Hl Hj. unfold GM.load. unfold_monad. rewrite Hl. unfold_monad.
  rewrite Hj. reflexivity.
Qed.

Lemma GM_cleaning_ok lrows jrows s :
  no_malformed_date lrows -> work_years_present jrows ->
  GM.cleaning (DfLayoffs lrows, DfJobs jrows) s
  = (Returned (List.map derive_dates lrows, GM.clean_jobs jrows),
     set_stdout (fun out => (out ++ ["Step 2: Cleaning Data..."])%list) s).
Proof.
  unfold no_malformed_date, work_years_present. intros Hm Hy.
  unfold GM.cleaning. unfold_monad. cbv [Pd.to_datetime]. cbn [fst snd orb].
  rewrite Hm. cbn [negb]. unfold_monad. rewrite Hy. reflexivity.
Qed.


(** What a completed run of [project_gm.py] went through. *)
Lemma GM_script_inv s r s' :
  GM.script s = (Returned r, s') ->
  exists lrows jrows s1 s2,
    inputs s lrows jrows /\
    no_malformed_date lrows /\ work_years_present jrows /\
    fs s1 = fs s /\ savefig_log s1 = savefig_log s /\
    GM.image_generation (List.map derive_dates lrows) (GM.clean_jobs jrows) s1
    = (Returned r, s2) /\
    GM.powerpoint_generation s2 = (Returned tt, s').
Proof.
  unfold GM.script. intros H.
  apply bind_inv in H. destruct H as (dfs & sa & Hload & H).
  apply bind_inv in H. destruct H as (tables & sb & Hclean & H).
  apply bind_inv in H. destruct H as (res & sc & Himg & H).
  apply bind_inv in H. destruct H as ([] & sd & Hppt & H).
  inversion H; subst; clear H.
  apply GM_load_inv in Hload.
  destruct Hload as (l & j & Hl & Hj & -> & Hfa & Hsa).
  apply GM_cleaning_inv in Hclean.
  destruct Hclean as (lrows & jrows & Hd & Hm & Hy & -> & Hfb & Hsb).
  inversion Hd; subst; clear Hd.
  exists lrows, jrows, sb, sc. cbn [fst snd] in Himg.
  unfold inputs. repeat split; auto; congruence.
Qed.

(** A run over two well-formed tables completes. *)
Lemma GM_script_returns s lrows jrows :
  inputs s lrows jrows ->
  no_malformed_date lrows -> work_years_present jrows ->
  exists r s', GM.script s = (Returned r, s').
Proof.
  intros [Hl Hj] Hm Hy. unfold GM.script.
  erewrite bind_returned by (apply GM_load_ok; eassumption).
  erewrite bind_returned by (apply GM_cleaning_ok; assumption).
  cbn [fst snd].
  match goal with
  | |- context [GM.image_generation ?l ?j] =>
      destruct (GM_image_generation_total l j
        (set_stdout (fun out => (out ++ ["Step 2: Cleaning Data..."])%list)
           (set_stdout (fun out => (out ++ ["Step 1: Loading Data..."])%list)
              s))) as (r & s2 & Himg)
  end.
  erewrite bind_returned by exact Himg.
  destruct (GM_powerpoint_generation_run s2) as (s3 & Hppt & _).
  { apply GM_image_generation_state in Himg. destruct Himg as (Hfs & _).
    rewrite Hfs. apply List.Forall_forall. intros p Hp.
    rewrite lookup_write_images by assumption. eauto. }
  erewrite bind_returned by exact Hppt.
  unfold ret. eauto.
Qed.

(** ** project_gp.py *)

Lemma GP_load_inv s dfs s1 :
  GP.load s = (Returned dfs, s1) ->
  exists l j, fs s !! "layoffs.csv" = Some (Csv l) /\
              fs s !! "jobs_in_data.csv" = Some (Csv j) /\
              dfs = (l, j) /\ s1 = s.
Proof.
  unfold GP.load. unfold_monad.
  destruct (fs s !! "layoffs.csv") as [[l| |]|]; unfold_monad;
    try discriminate.
  destruct (fs s !! "jobs_in_data.csv") as [[j| |]|]; unfold_monad;
    try discriminate.
  intros H. inversion H; subst. exists l, j. auto.
Qed.

Lemma GP_load_ok s l j :
  fs s !! "layoffs.csv" = Some (Csv l) ->
  fs s !! "jobs_in_data.csv" = Some (Csv j) ->
  GP.load s = (Returned (l, j), s).
Proof.
  intros Hl Hj. unfold GP.load. unfold_monad. rewrite Hl. unfold_monad.
  rewrite Hj. reflexivity.
Qed.

Lemma GP_preprocessing_inv dfs s tables s1 :
  GP.preprocessing dfs s = (Returned tables, s1) ->
  exists lrows jrows,
    dfs = (DfLayoffs lrows, DfJobs jrows) /\
    work_years_present jrows /\
    tables = (GP_layoffs lrows, GP.clean_jobs jrows) /\ s1 = s.
Proof.
  unfold GP.preprocessing, work_years_present, GP_layoffs.
  unfold_monad. cbv [Pd.to_datetime]. cbn [orb].
  destruct dfs as [[lrows|?] [?|jrows]]; cbn [fst snd]; unfold_monad;
    try discriminate.
  destruct (forallb _ jrows) eqn:E; unfold_monad; try discriminate.
  intros H. inversion H; subst. exists lrows, jrows. repeat split; auto.
Qed.

Lemma GP_preprocessing_ok lrows jrows s :
  work_years_present jrows ->
  GP.preprocessing (DfLayoffs lrows, DfJobs jrows) s
  = (Returned (GP_layoffs lrows, GP.clean_jobs jrows), s).
Proof.
  unfold work_years_present. intros Hy.
  unfold GP.preprocessing. unfold_monad. cbv [Pd.to_datetime].
  cbn [fst snd orb]. unfold_monad. rewrite Hy. reflexivity.
Qed.

Lemma GP_figure_generation_total l j s :
  exists r s', GP.figure_generation l j s = (Returned r, s').
Proof.
  destruct s.
  unfold GP.figure_generation, GP.save_figure, GP.save_current_fig.
  run_script. eauto.
Qed.

Lemma GP_figure_generation_state l j s r s' :
  GP.figure_generation l j s = (Returned r, s') ->
  fs s' = write_images GP_chart_paths (fs s) /\
  savefig_log s' = (savefig_log s ++ GP_chart_paths)%list /\
  figure_paths s' = record_figures GP_figures (figure_paths s) /\
  prs s' = prs s.
Proof.
  destruct s.
  unfold GP.figure_generation, GP.save_figure, GP.save_current_fig.
  run_script.
  intros H. injection H as _ <-.
  cbn [fs savefig_log prs figure_paths].
  repeat split.
  unfold GP_chart_paths, GP_figures. cbn [List.map snd].
  rewrite <- !app_assoc. reflexivity.
Qed.

Lemma GP_figure_generation_pure l j s1 s2 :
  fst (GP.figure_generation l j s1) = fst (GP.figure_generation l j s2).
Proof.
  destruct s1, s2.
  unfold GP.figure_generation, GP.save_figure, GP.save_current_fig.
  run_script. reflexivity.
Qed.

Lemma GP_powerpoint_generation_run s :
  Forall (fun kf => figure_paths s !! fst kf
                    = Some (path_join GP.FIG_DIR (snd kf))) GP_figures ->
  exists s',
    GP.powerpoint_generation s = (Returned tt, s') /\
    fs s' = <[GP.PPTX_PATH := Pptx (prs s')]> (fs s) /\
    savefig_log s' = savefig_log s /\
    length (prs s') = 20%nat /\
    omap slide_picture (prs s') = GP_chart_paths.
Proof.
  destruct s as [f out env args p fp log].
  unfold GP_chart_paths, GP_figures. cbn [List.map fst snd figure_paths].
  intros H.
  repeat match goal with
         | H : Forall _ (_ :: _) |- _ =>
             let H1 := fresh "Hp" in
             apply Forall_cons_1 in H; destruct H as [H1 H];
             cbn [fst snd] in H1
         end.
  unfold GP.powerpoint_generation, GP.add_title_and_content. run_script.
  repeat match goal with
         | Hp : fp !! _ = Some _ |- _ => rewrite Hp; clear Hp
         end.
  eexists. split; [reflexivity|].
  cbn [fs savefig_log prs]. repeat split.
Qed.

Lemma GP_recorded_figures :
  Forall (fun kf => record_figures GP_figures ∅ !! fst kf
                    = Some (path_join GP.FIG_DIR (snd kf))) GP_figures.
Proof. unfold GP_figures. repeat constructor. Qed.


(** What a completed run of [project_gp.py] went through. *)
Lemma GP_script_inv s r s' :
  GP.script s = (Returned r, s') ->
  exists lrows jrows s1 s2,
    inputs s lrows jrows /\ work_years_present jrows /\
    fs s1 = fs s /\ savefig_log s1 = savefig_log s /\
    figure_paths s1 = ∅ /\
    GP.figure_generation (GP_layoffs lrows) (GP.clean_jobs jrows) s1
    = (Returned r, s2) /\
    GP.powerpoint_generation s2 = (Returned tt, s').
Proof.
  unfold GP.script. intros H.
  apply bind_inv in H. destruct H as (dfs & sa & Hload & H).
  apply bind_inv in H. destruct H as (tables & sb & Hclean & H).
  apply bind_inv in H. destruct H as ([] & sn & Hnew & H).
  apply bind_inv in H. destruct H as (res & sc & Himg & H).
  apply bind_inv in H. destruct H as ([] & sd & Hppt & H).
  inversion H; subst; clear H.
  apply GP_load_inv in Hload.
  destruct Hload as (l & j & Hl & Hj & -> & ->).
  apply GP_preprocessing_inv in Hclean.
  destruct Hclean as (lrows & jrows & Hd & Hy & -> & ->).
  inversion Hd; subst; clear Hd.
  unfold GP.new_figure_paths in Hnew. inversion Hnew; subst; clear Hnew.
  exists lrows, jrows, (set_figure_paths (fun _ => ∅) s), sc.
  cbn [fst snd] in Himg.
  unfold inputs. repeat split; auto.
Qed.

Lemma GP_script_returns s lrows jrows :
  inputs s lrows jrows -> work_years_present jrows ->
  exists r s', GP.script s = (Returned r, s').
Proof.
  intros [Hl Hj] Hy. unfold GP.script.
  erewrite bind_returned by (apply GP_load_ok; eassumption).
  erewrite bind_returned by (apply GP_preprocessing_ok; assumption).
  erewrite bind_returned by (unfold GP.new_figure_paths; reflexivity).
  cbn [fst snd]. rewrite bind_unfold.
  match goal with
  | |- context [GP.figure_generation ?l ?j ?s0] =>
      destruct (GP_figure_generation_total l j s0) as (r & s2 & Himg)
  end.
  rewrite Himg.
  destruct (GP_powerpoint_generation_run s2) as (s3 & Hppt & _).
  { apply GP_figure_generation_state in Himg.
    destruct Himg as (_ & _ & Hfp & _).
    rewrite Hfp. cbn [figure_paths set_figure_paths].
    exact GP_recorded_figures. }
  rewrite bind_unfold, Hppt. unfold ret. eauto.
Qed.

(** ** Outcomes as functions of the two input files *)



Lemma GM_script_outcome s :
  fst (GM.script s)
  = GM_outcome (fs s !! "layoffs.csv") (fs s !! "jobs_in_data.csv").
Proof.
  unfold GM.script, GM.load, GM.on_error, GM.cleaning, GM_outcome.
  unfold_monad. cbv [Pd.to_datetime]. cbn [orb].
  destruct (fs s !! "layoffs.csv") as [[l| |]|]; unfold_monad;
    try reflexivity.
  destruct (fs s !! "jobs_in_data.csv") as [[j| |]|]; unfold_monad;
    try reflexivity.
  destruct l as [lrows|?]; cbn [fst snd]; unfold_monad; try reflexivity.
  destruct (existsb Pd.malformed (List.map date lrows));
    cbn [negb fst snd]; unfold_monad; try reflexivity.
  destruct j as [?|jrows]; unfold_monad; try reflexivity.
  destruct (forallb _ jrows); unfold_monad; reflexivity.
Qed.

Lemma GP_script_outcome s :
  fst (GP.script s)
  = GP_outcome (fs s !! "layoffs.csv") (fs s !! "jobs_in_data.csv").
Proof.
  unfold GP.script, GP.load, GP.preprocessing, GP.new_figure_paths,
    GP_outcome, GP_layoffs.
  unfold_monad. cbv [Pd.to_datetime]. cbn [orb].
  destruct (fs s !! "layoffs.csv") as [[l| |]|]; unfold_monad;
    try reflexivity.
  destruct (fs s !! "jobs_in_data.csv") as [[j| |]|]; unfold_monad;
    try reflexivity.
  destruct l as [lrows|?]; cbn [fst snd]; unfold_monad; try reflexivity.
  destruct j as [?|jrows]; unfold_monad; try reflexivity.
  destruct (forallb _ jrows); unfold_monad; reflexivity.
Qed.

(** ** The files a run leaves untouched *)







(** ** The aggregates a completed run returns *)



(* ===================================================================== *)
(** * Properties of the scripts *)
(* ===================================================================== *)

Lemma set_stdout_twice f g s :
  set_stdout f (set_stdout g s) = set_stdout (fun out => f (g out)) s.
Proof. reflexivity. Qed.

Lemma GM_script_missing s path :
  first_missing s path -> GM.script s = (SystemExit, GM_exit_state path s).
Proof.
  unfold GM.script, GM.load, GM.on_error, GM_exit_state.
  intros [[Hl ->]|[[df Hl] [Hj ->]]]; unfold_monad; rewrite Hl; unfold_monad.
  - rewrite <- app_assoc. reflexivity.
  - rewrite Hj. unfold_monad. rewrite <- app_assoc. reflexivity.
Qed.

Lemma GP_script_missing s path :
  first_missing s path ->
  GP.script s = (Raised (FileNotFoundError path), s).
Proof.
  unfold GP.script, GP.load.
  intros [[Hl ->]|[[df Hl] [Hj ->]]]; unfold_monad; rewrite Hl; unfold_monad.
  - reflexivity.
  - rewrite Hj. reflexivity.
Qed.

Lemma GM_outcome_exit lf jf :
  GM_outcome lf jf = SystemExit ->
  lf = None \/ ((exists df, lf = Some (Csv df)) /\ jf = None).
Proof.
  unfold GM_outcome.
  destruct lf as [[l| |]|]; try discriminate; auto.
  destruct jf as [[j| |]|]; try discriminate; eauto.
  destruct l as [lrows|?]; try discriminate.
  destruct (existsb _ _); try discriminate.
  destruct j as [?|jrows]; try discriminate.
  destruct (forallb _ jrows); discriminate.
Qed.

Lemma GP_outcome_no_exit lf jf : GP_outcome lf jf <> SystemExit.
Proof.
  unfold GP_outcome.
  destruct lf as [[l| |]|]; try discriminate.
  destruct jf as [[j| |]|]; try discriminate.
  destruct l as [lrows|?]; try discriminate.
  destruct j as [?|jrows]; try discriminate.
  destruct (forallb _ jrows); discriminate.
Qed.

Lemma GM_script_exit_missing s s' :
  GM.script s = (SystemExit, s') -> exists path, first_missing s path.
Proof.
  intros H. pose proof (GM_script_outcome s) as Ho. rewrite H in Ho.
  symmetry in Ho. apply GM_outcome_exit in Ho. unfold first_missing.
  destruct Ho as [Hl|[Hl Hj]]; eauto 6.
Qed.

Lemma GP_script_no_exit s s' : GP.script s <> (SystemExit, s').
Proof.
  intros H. pose proof (GP_script_outcome s) as Ho. rewrite H in Ho.
  symmetry in Ho. now apply GP_outcome_no_exit in Ho.
Qed.

(** C2, as stated, fails on [project_gp.py]: with [jobs_in_data.csv]
    absent an input file is missing, yet the error is not caught and
    handled; it propagates as a raised FileNotFoundError and the script
    itself prints nothing. *)
Lemma C2_gp_does_not_catch_missing_file :
  missing_input state_without_jobs /\
  ~ caught_and_handled GP.script state_without_jobs /\
  GP.script state_without_jobs
  = (Raised (FileNotFoundError "jobs_in_data.csv"), state_without_jobs).
Proof.
  assert (H : GP.script state_without_jobs
              = (Raised (FileNotFoundError "jobs_in_data.csv"),
                 state_without_jobs)) by (vm_compute; reflexivity).
  split; [right; vm_compute; reflexivity|]. split; [|exact H].
  intros (s' & Hs & _). rewrite H in Hs. discriminate.
Qed.

(** C2, amended.  When [layoffs.csv] is absent, or [layoffs.csv] is read
    and [jobs_in_data.csv] is absent, [project_gm.py] catches the
    FileNotFoundError, prints its message naming the file and exits, while
    [project_gp.py], which has no handler, lets the same error propagate
    uncaught.  The handler of [project_gm.py] catches FileNotFoundError and
    nothing else, a handled exit of [project_gm.py] only ever comes from a
    missing input file, and [project_gp.py] never ends by a handled exit. *)
Theorem C2_missing_input_file (s : state) (path : string) :
  first_missing s path ->
  GM.script s = (SystemExit, GM_exit_state path s) /\
  GP.script s = (Raised (FileNotFoundError path), s) /\
  (forall e, is_Some (GM.on_error e) <-> exists p, e = FileNotFoundError p) /\
  (forall t t', GM.script t = (SystemExit, t') -> exists p, first_missing t p) /\
  (forall t t', GP.script t <> (SystemExit, t')).
Proof.
  intros Hm. split; [now apply GM_script_missing|].
  split; [now apply GP_script_missing|].
  split; [|split].
  - intros e. split.
    + destruct e as [p| |]; intros [h Hh]; try discriminate. eauto.
    + intros [p ->]. cbn. eauto.
  - apply GM_script_exit_missing.
  - apply GP_script_no_exit.
Qed.

Lemma C2_missing_input_file_witness :
  first_missing state_without_jobs "jobs_in_data.csv" /\
  GM.script state_without_jobs
  = (SystemExit, GM_exit_state "jobs_in_data.csv" state_without_jobs) /\
  stdout (GM_exit_state "jobs_in_data.csv" state_without_jobs)
  = ["Step 1: Loading Data...";
     "Error: [Errno 2] No such file or directory: 'jobs_in_data.csv'. Please ensure csv files are in the folder."].
Proof.
  assert (Hm : first_missing state_without_jobs "jobs_in_data.csv").
  { right. split; [eexists; vm_compute; reflexivity|].
    split; [vm_compute; reflexivity | reflexivity]. }
  split; [exact Hm|].
  split; [exact (proj1 (C2_missing_input_file _ _ Hm)) | reflexivity].
Defined.



(** ** What a completed run returns *)

Lemma GM_clean_jobs_rows jrows :
  GM.clean_jobs jrows = List.map GM_clean_row (dropna_salary jrows).
Proof.
  unfold GM.clean_jobs, GM.replace_experience, GM.clean_labels.
  rewrite !List.map_map. apply List.map_ext. intros []. reflexivity.
Qed.





Lemma GM_script_results s lrows jrows r s' :
  inputs s lrows jrows -> GM.script s = (Returned r, s') ->
  work_years_present jrows /\
  fst (GM.image_generation (List.map derive_dates lrows)
         (GM.clean_jobs jrows) blank) = Returned r.
Proof.
  intros [Hl Hj] Hrun. apply GM_script_inv in Hrun.
  destruct Hrun as (l & j & s1 & s2 & [Hl' Hj'] & _ & Hy & _ & _ & Himg & _).
  assert (l = lrows) by congruence. assert (j = jrows) by congruence.
  subst. split; [exact Hy|].
  rewrite (GM_image_generation_pure _ _ blank s1), Himg. reflexivity.
Qed.

Lemma GP_script_results s lrows jrows r s' :
  inputs s lrows jrows -> GP.script s = (Returned r, s') ->
  work_years_present jrows /\
  fst (GP.figure_generation (GP_layoffs lrows) (GP.clean_jobs jrows) blank)
  = Returned r.
Proof.
  intros [Hl Hj] Hrun. apply GP_script_inv in Hrun.
  destruct Hrun as (l & j & s1 & s2 & [Hl' Hj'] & Hy & _ & _ & _ & Himg & _).
  assert (l = lrows) by congruence. assert (j = jrows) by congruence.
  subst. split; [exact Hy|].
  rewrite (GP_figure_generation_pure _ _ blank s1), Himg. reflexivity.
Qed.

Lemma GM_results_inv l j r :
  fst (GM.image_generation l j blank) = Returned r ->
  exists s', GM.image_generation l j blank = (Returned r, s').
Proof.
  destruct (GM.image_generation l j blank) as [o s']. cbn [fst].
  intros ->. eauto.
Qed.

Lemma GP_results_inv l j r :
  fst (GP.figure_generation l j blank) = Returned r ->
  exists s', GP.figure_generation l j blank = (Returned r, s').
Proof.
  destruct (GP.figure_generation l j blank) as [o s']. cbn [fst].
  intros ->. eauto.
Qed.








(** ** Grouped sums of the layoffs table *)




Lemma GP_layoffs_perm lrows :
  Permutation (GP_layoffs lrows) (List.map derive_dates lrows).
Proof. unfold GP_layoffs. apply sort_rows_perm. Qed.



(** ** Rows without salary (C1) *)







(** ** Malformed dates (C3) *)






(** ** Top-N lists (C4) *)



Lemma NoDup_head {A} (n : nat) (l : list A) :
  List.NoDup l -> List.NoDup (Pd.head n l).
Proof.
  unfold Pd.head. intros H. revert n.
  induction H as [|x l Hx Hl IH]; intros [|n]; simpl; try constructor.
  - intros Hin. apply Hx. eapply (in_head n); exact Hin.
  - apply IH.
Qed.







(** ** Experience levels and label cleaning (C5, C7) *)









(** ** Images and slides (C8) *)







(** ** Work-setting proportions (C9) *)

Section CountTableFacts.
Context {R C X : Type} `{EqDecision R} `{EqDecision C}.
Variable rleb : R -> R -> bool.
Variable cleb : C -> C -> bool.
Variable row : X -> option R.
Variable col : X -> option C.




End CountTableFacts.







(** ** Missing head counts (C10) *)



(* ===================================================================== *)
(** * Further properties of the scripts *)
(* ===================================================================== *)

(** ** String cleaning *)

Lemma isspace_upper c : Py.isspace (Py.upper c) = Py.isspace c.
Proof. destruct c as [[] [] [] [] [] [] [] []]; reflexivity. Qed.

Lemma isspace_lower c : Py.isspace (Py.lower c) = Py.isspace c.
Proof. destruct c as [[] [] [] [] [] [] [] []]; reflexivity. Qed.

Lemma isspace_uncased c :
  Py.isspace c = true -> Py.isupper c || Py.islower c = false.
Proof. destruct c as [[] [] [] [] [] [] [] []]; intros H; try reflexivity; discriminate H. Qed.

Lemma upper_space c : Py.isspace c = true -> Py.upper c = c.
Proof. destruct c as [[] [] [] [] [] [] [] []]; intros H; try reflexivity; discriminate H. Qed.

Lemma cased_upper c :
  Py.isupper (Py.upper c) || Py.islower (Py.upper c)
  = Py.isupper c || Py.islower c.
Proof. destruct c as [[] [] [] [] [] [] [] []]; reflexivity. Qed.

Lemma cased_lower c :
  Py.isupper (Py.lower c) || Py.islower (Py.lower c)
  = Py.isupper c || Py.islower c.
Proof. destruct c as [[] [] [] [] [] [] [] []]; reflexivity. Qed.

Lemma upper_upper c : Py.upper (Py.upper c) = Py.upper c.
Proof. destruct c as [[] [] [] [] [] [] [] []]; reflexivity. Qed.

Lemma lower_lower c : Py.lower (Py.lower c) = Py.lower c.
Proof. destruct c as [[] [] [] [] [] [] [] []]; reflexivity. Qed.

Lemma lstrip_spec s :
  exists l, s = l ++ Py.lstrip s /\ all_space l = true.
Proof.
  induction s as [|c s [l [Hs Hl]]]; cbn [Py.lstrip].
  - exists "". split; reflexivity.
  - destruct (Py.isspace c) eqn:Hc.
    + exists (String c l). split.
      * string_app. now f_equal.
      * unfold all_space in *. cbn. now rewrite Hc.
    + exists "". split; reflexivity.
Qed.

Lemma lstrip_head s c t : Py.lstrip s = String c t -> Py.isspace c = false.
Proof.
  induction s as [|c0 s IH]; cbn [Py.lstrip]; [discriminate|].
  destruct (Py.isspace c0) eqn:Hc; [exact IH|].
  intros H. injection H as <- _. exact Hc.
Qed.

Lemma rstrip_spec s :
  exists r, s = Py.rstrip s ++ r /\ all_space r = true.
Proof.
  induction s as [|c s [r [Hs Hr]]]; cbn [Py.rstrip].
  - exists "". split; reflexivity.
  - destruct (Py.rstrip s) as [|c1 t] eqn:Ht.
    + destruct (Py.isspace c) eqn:Hc.
      * exists (String c r). split.
        -- string_app. now f_equal.
        -- unfold all_space in *. cbn. now rewrite Hc.
      * exists r. split; [|exact Hr]. string_app. now f_equal.
    + exists r. split; [|exact Hr]. string_app. now f_equal.
Qed.

Lemma rstrip_last s t c : Py.rstrip s = t ++ String c "" -> Py.isspace c = false.
Proof.
  revert t. induction s as [|c0 s IH]; intros t; cbn [Py.rstrip].
  - destruct t; discriminate.
  - destruct (Py.rstrip s) as [|c1 u] eqn:Hu.
    + destruct (Py.isspace c0) eqn:Hc.
      * destruct t; discriminate.
      * destruct t as [|c2 t]; cbn; intros H.
        -- injection H as <-. exact Hc.
        -- injection H as _ H. destruct t; discriminate.
    + destruct t as [|c2 t]; cbn; intros H.
      * discriminate.
      * injection H as _ H. exact (IH t H).
Qed.

Lemma rstrip_head c t :
  Py.isspace c = false -> exists t', Py.rstrip (String c t) = String c t'.
Proof.
  intros Hc. cbn [Py.rstrip]. destruct (Py.rstrip t); rewrite ?Hc; eauto.
Qed.

Lemma lstrip_fixed s :
  (forall c t, s = String c t -> Py.isspace c = false) -> Py.lstrip s = s.
Proof.
  destruct s as [|c t]; [reflexivity|]. intros H. cbn.
  now rewrite (H c t eq_refl).
Qed.

Lemma rstrip_idem s : Py.rstrip (Py.rstrip s) = Py.rstrip s.
Proof.
  induction s as [|c s IH]; [reflexivity|]. cbn [Py.rstrip].
  destruct (Py.rstrip s) as [|c1 t] eqn:Ht.
  - destruct (Py.isspace c) eqn:Hc; [reflexivity|]. cbn. now rewrite Hc.
  - cbn [Py.rstrip]. cbn [Py.rstrip] in IH. now rewrite IH.
Qed.

Lemma strip_head s c t : Py.strip s = String c t -> Py.isspace c = false.
Proof.
  unfold Py.strip. destruct (Py.lstrip s) as [|c0 u] eqn:Hl; [discriminate|].
  pose proof (lstrip_head _ _ _ Hl) as Hc.
  destruct (rstrip_head c0 u Hc) as [t' Ht']. rewrite Ht'.
  intros H. now injection H as <- _.
Qed.

Lemma strip_idem s : Py.strip (Py.strip s) = Py.strip s.
Proof.
  unfold Py.strip at 1. rewrite lstrip_fixed.
  - unfold Py.strip. apply rstrip_idem.
  - intros c t. apply strip_head.
Qed.

(** X1: [str.strip()] removes whitespace, and only whitespace, at the two
    ends of a string: the result is the string without a prefix and a
    suffix made of whitespace only, it neither starts nor ends with a
    whitespace character, and stripping it again changes nothing. *)
Theorem strip_removes_surrounding_whitespace (s : string) :
  (exists l r, s = l ++ Py.strip s ++ r /\
               all_space l = true /\ all_space r = true) /\
  (forall c t, Py.strip s = String c t -> Py.isspace c = false) /\
  (forall t c, Py.strip s = t ++ String c "" -> Py.isspace c = false) /\
  Py.strip (Py.strip s) = Py.strip s.
Proof.
  repeat split.
  - destruct (lstrip_spec s) as [l [Hs Hl]].
    destruct (rstrip_spec (Py.lstrip s)) as [r [Hs' Hr]].
    exists l, r. unfold Py.strip. now rewrite <- Hs', <- Hs.
  - apply strip_head.
  - intros t c. unfold Py.strip. apply rstrip_last.
  - apply strip_idem.
Qed.

Lemma title_from_idem p s :
  Py.title_from p (Py.title_from p s) = Py.title_from p s.
Proof.
  revert p. induction s as [|c s IH]; intros p; [reflexivity|].
  cbn [Py.title_from]. destruct p.
  - now rewrite lower_lower, cased_lower, IH.
  - now rewrite upper_upper, cased_upper, IH.
Qed.

Lemma title_lstrip s :
  Py.title_from false (Py.lstrip s) = Py.lstrip (Py.title_from false s).
Proof.
  induction s as [|c s IH]; [reflexivity|].
  cbn [Py.title_from Py.lstrip]. rewrite isspace_upper.
  destruct (Py.isspace c) eqn:Hc; [|reflexivity].
  now rewrite (isspace_uncased c Hc).
Qed.

Lemma title_rstrip p s :
  Py.title_from p (Py.rstrip s) = Py.rstrip (Py.title_from p s).
Proof.
  revert p. induction s as [|c s IH]; intros p; [reflexivity|].
  cbn [Py.title_from Py.rstrip]. rewrite <- IH.
  assert (Hsp : Py.isspace (if p then Py.lower c else Py.upper c)
                = Py.isspace c)
    by (destruct p; [apply isspace_lower | apply isspace_upper]).
  rewrite Hsp.
  destruct (Py.rstrip s) as [|c1 t]; cbn [Py.title_from].
  - destruct (Py.isspace c); reflexivity.
  - reflexivity.
Qed.

Lemma strip_title s : Py.strip (Py.title s) = Py.title (Py.strip s).
Proof.
  unfold Py.strip, Py.title. now rewrite <- title_lstrip, <- title_rstrip.
Qed.

Lemma title_strip_idem s :
  Py.title (Py.strip (Py.title (Py.strip s))) = Py.title (Py.strip s).
Proof.
  rewrite strip_title, strip_idem. unfold Py.title. apply title_from_idem.
Qed.

Lemma replace_clean_idem v :
  Py.title (Py.strip v) = v ->
  GM.replace_abbreviation (Py.title (Py.strip (GM.replace_abbreviation v)))
  = GM.replace_abbreviation v.
Proof.
  intros Hv. unfold GM.replace_abbreviation at 2 3.
  repeat case_decide; subst; try reflexivity.
  rewrite Hv. unfold GM.replace_abbreviation.
  repeat case_decide; congruence.
Qed.

Lemma GM_clean_row_idem r : GM_clean_row (GM_clean_row r) = GM_clean_row r.
Proof.
  destruct r as [wy jc el ws cs er sal]. unfold GM_clean_row.
  cbn [work_year job_category experience_level work_setting company_size
       employee_residence salary_in_usd].
  f_equal.
  - destruct jc as [x|]; [|reflexivity]. cbn. now rewrite title_strip_idem.
  - destruct el as [x|]; [|reflexivity]. cbn. f_equal.
    apply replace_clean_idem, title_strip_idem.
  - destruct ws as [x|]; [|reflexivity]. cbn. now rewrite title_strip_idem.
Qed.

Lemma GM_clean_labels_idem df col :
  GM.clean_labels (GM.clean_labels df col) col = GM.clean_labels df col.
Proof.
  unfold GM.clean_labels. rewrite List.map_map. apply List.map_ext.
  intros r. destruct r as [wy [jc|] [el|] [ws|] [cs|] er sal];
    destruct col; cbn; rewrite ?title_strip_idem; reflexivity.
Qed.

(** X2: the cleaning of the jobs table in [project_gm.py] is idempotent:
    [clean_labels] applied twice to a column gives what it gives applied
    once, and the whole cleaning (rows without salary dropped, labels
    trimmed and title-cased, abbreviations spelled out) applied to an
    already cleaned table leaves it as it is. *)
Theorem GM_cleaning_idempotent (jrows : list job) :
  GM.clean_jobs (GM.clean_jobs jrows) = GM.clean_jobs jrows /\
  (forall col,
     GM.clean_labels (GM.clean_labels jrows col) col
     = GM.clean_labels jrows col).
Proof.
  split; [|intros col; apply GM_clean_labels_idem].
  rewrite !GM_clean_jobs_rows.
  assert (Hkeep : dropna_salary (List.map GM_clean_row (dropna_salary jrows))
                  = List.map GM_clean_row (dropna_salary jrows)).
  { unfold dropna_salary. induction jrows as [|r l IH]; [reflexivity|].
    cbn [List.filter]. destruct (Pd.notna (salary_in_usd r)) eqn:Hr.
    - cbn [List.map List.filter].
      change (salary_in_usd (GM_clean_row r)) with (salary_in_usd r).
      rewrite Hr. now f_equal.
    - exact IH. }
  rewrite Hkeep, List.map_map. apply List.map_ext. intros r.
  apply GM_clean_row_idem.
Qed.

(** ** Runs that fail *)













(** ** Images and slides, one at a time *)











(** ** Ascending sorts and group labels *)

Section SortByFacts.
Context {A : Type}.
Variable leb : A -> A -> bool.
Hypothesis leb_total : forall x y, leb x y = true \/ leb y x = true.
Hypothesis leb_trans :
  forall x y z, leb x y = true -> leb y z = true -> leb x z = true.

Lemma insert_by_sorted (x : A) (l : list A) :
  StronglySorted (fun a b => leb a b = true) l ->
  StronglySorted (fun a b => leb a b = true) (Pd.insert_by leb x l).
Proof using leb_total leb_trans.
  induction 1 as [|y l Hs IH Hy]; simpl.
  - repeat constructor.
  - destruct (leb x y) eqn:E.
    + constructor; [now constructor|].
      constructor; [exact E|].
      rewrite List.Forall_forall in *. intros b Hb.
      eapply leb_trans; [exact E | now apply Hy].
    + constructor; [exact IH|].
      assert (Hyx : leb y x = true)
        by (destruct (leb_total x y) as [H|H]; [congruence | exact H]).
      rewrite List.Forall_forall in *. intros b Hb.
      apply (Permutation_in _ (insert_by_perm leb x l)) in Hb.
      destruct Hb as [<-|Hb]; [exact Hyx | now apply Hy].
Qed.

Lemma sort_by_sorted (l : list A) :
  StronglySorted (fun a b => leb a b = true) (Pd.sort_by leb l).
Proof using leb_total leb_trans.
  unfold Pd.sort_by. induction l as [|x l IH]; simpl; [constructor|].
  now apply insert_by_sorted.
Qed.

Hypothesis leb_antisym :
  forall x y, leb x y = true -> leb y x = true -> x = y.



End SortByFacts.

Section GroupOrderFacts.
Context {K : Type} `{EqDecision K}.
Variable leb : K -> K -> bool.
Hypothesis leb_total : forall x y, leb x y = true \/ leb y x = true.
Hypothesis leb_trans :
  forall x y z, leb x y = true -> leb y z = true -> leb x z = true.
Hypothesis leb_antisym :
  forall x y, leb x y = true -> leb y x = true -> x = y.



End GroupOrderFacts.







(** ** The other aggregates of a completed run *)

Lemma GM_script_image s lrows jrows r s' :
  inputs s lrows jrows -> GM.script s = (Returned r, s') ->
  exists sx,
    GM.image_generation (List.map derive_dates lrows) (GM.clean_jobs jrows)
      blank = (Returned r, sx).
Proof.
  intros Hin Hrun.
  destruct (GM_script_results _ _ _ _ _ Hin Hrun) as [_ Hres].
  now apply GM_results_inv in Hres.
Qed.

Lemma GP_script_image s lrows jrows r s' :
  inputs s lrows jrows -> GP.script s = (Returned r, s') ->
  exists sx,
    GP.figure_generation (GP_layoffs lrows) (GP.clean_jobs jrows) blank
    = (Returned r, sx).
Proof.
  intros Hin Hrun.
  destruct (GP_script_results _ _ _ _ _ Hin Hrun) as [_ Hres].
  now apply GP_results_inv in Hres.
Qed.

Lemma GM_layoffs_fields l j s r s' :
  GM.image_generation l j s = (Returned r, s') ->
  GM.ind_layoffs r
  = Pd.head 12 (Pd.sort_values_desc Z.leb
      (Pd.groupby_agg String.leb (fun x => industry (l_row x))
         GM.laid_off Pd.sum l)) /\
  GM.perc_data r
  = List.map (fun x => (industry (l_row x), percentage_laid_off (l_row x)))
      (List.filter
         (fun x => Pd.isin (industry (l_row x))
            (Pd.index (Pd.head 8
               (Pd.value_counts (List.map (fun x => industry (l_row x)) l)))))
         l).
Proof.
  destruct s. unfold GM.image_generation, GM.save_plot. run_script.
  intros H. injection H as <- _. repeat split.
Qed.


Lemma GP_layoffs_fields l j s r s' :
  GP.figure_generation l j s = (Returned r, s') ->
  GP.top_industries r
  = Pd.head 12 (Pd.sort_values_desc Z.leb
      (Pd.dropna (Pd.groupby_agg String.leb (fun x => industry (l_row x))
                    GP.laid_off Pd.sum l))) /\
  (let perc_df :=
     List.filter (fun x => Pd.notna (industry (l_row x))
                           && Pd.notna (percentage_laid_off (l_row x))) l in
   let top_industry_names :=
     Pd.index (Pd.head 8
       (Pd.value_counts (List.map (fun x => industry (l_row x)) perc_df))) in
   GP.perc_boxes r
   = List.map
       (fun ind =>
          (ind, List.map (fun x => percentage_laid_off (l_row x))
                  (Pd.group_rows (fun x => industry (l_row x)) ind
                     (List.filter
                        (fun x => Pd.isin (industry (l_row x))
                                    top_industry_names)
                        perc_df))))
       top_industry_names) /\
  (let scatter_df :=
     List.filter (fun x => Pd.notna (funds_raised (l_row x))
                           && Pd.notna (GP.laid_off x)
                           && Pd.notna (stage (l_row x))) l in
   GP.scatter_groups r
   = List.map
       (fun st =>
          (st, List.map (fun x => (funds_raised (l_row x), GP.laid_off x))
                 (Pd.group_rows (fun x => stage (l_row x)) st scatter_df)))
       (Pd.unique (omap (fun x => stage (l_row x)) scatter_df))) /\
  GP.pivot r
  = Pd.fillna0
      (Pd.pivot_table Z.leb Z.leb year month GP.laid_off Pd.sum
         (List.filter (fun x => Pd.notna (year x) && Pd.notna (month x)
                                && Pd.notna (GP.laid_off x)) l)).
Proof.
  destruct s.
  unfold GP.figure_generation, GP.save_figure, GP.save_current_fig.
  run_script. intros H. injection H as <- _. repeat split.
Qed.


(** ** Layoff totals across the two scripts *)





(** ** Order of the rows and of the labels *)





Lemma date_leb_total (a b : option Pd.timestamp) :
  Pd.date_leb a b = true \/ Pd.date_leb b a = true.
Proof.
  destruct a as [[y1 m1 d1]|], b as [[y2 m2 d2]|]; cbn; auto.
  rewrite !orb_true_iff, !andb_true_iff, !orb_true_iff, !andb_true_iff,
    !Z.ltb_lt, !Z.eqb_eq, !Z.leb_le.
  lia.
Qed.

Lemma date_leb_trans (a b c : option Pd.timestamp) :
  Pd.date_leb a b = true -> Pd.date_leb b c = true ->
  Pd.date_leb a c = true.
Proof.
  destruct a as [[y1 m1 d1]|], b as [[y2 m2 d2]|], c as [[y3 m3 d3]|]; cbn;
    auto; try discriminate.
  rewrite !orb_true_iff, !andb_true_iff, !orb_true_iff, !andb_true_iff,
    !Z.ltb_lt, !Z.eqb_eq, !Z.leb_le.
  lia.
Qed.

(** X13: [project_gp.py] sorts the layoffs table by date.  The table its
    preprocessing hands to the charts holds the rows of the file, each
    once, with the converted date and the derived columns, in ascending
    order of date, the rows without date (empty or coerced) last. *)
Theorem GP_layoffs_sorted_by_date (dfs : dataframe * dataframe)
    (s s' : state) (layoffs : list layoff) (jobs : list GP.job_clean) :
  GP.preprocessing dfs s = (Returned (layoffs, jobs), s') ->
  exists lrows,
    fst dfs = DfLayoffs lrows /\
    Permutation layoffs (List.map derive_dates lrows) /\
    StronglySorted
      (fun a b => Pd.date_leb (l_date a) (l_date b) = true) layoffs /\
    (forall before x after,
       layoffs = (before ++ x :: after)%list -> l_date x = None ->
       Forall (fun y => l_date y = None) after).
Proof.
  intros Hrun. apply GP_preprocessing_inv in Hrun.
  destruct Hrun as (lrows & jrows & -> & _ & Heq & _).
  injection Heq as -> _. exists lrows.
  assert (Hsorted : StronglySorted
            (fun a b => Pd.date_leb (l_date a) (l_date b) = true)
            (GP_layoffs lrows)).
  { unfold GP_layoffs, Pd.sort_rows.
    apply (sort_by_sorted (fun a b => Pd.date_leb (l_date a) (l_date b))).
    - intros x y. apply date_leb_total.
    - intros x y z. apply date_leb_trans. }
  split; [reflexivity|]. split; [apply GP_layoffs_perm|].
  split; [exact Hsorted|].
  intros before x after Heq Hx. rewrite Heq in Hsorted.
  clear Heq. induction before as [|b before IH].
  - cbn in Hsorted. apply StronglySorted_inv in Hsorted.
    destruct Hsorted as [_ Hall]. eapply Forall_impl; [exact Hall|].
    intros y Hy. cbn beta in Hy. rewrite Hx in Hy.
    destruct (l_date y); [discriminate|reflexivity].
  - apply IH. cbn in Hsorted. now apply StronglySorted_inv in Hsorted.
Qed.

Lemma GP_layoffs_sorted_by_date_witness :
  exists layoffs jobs,
    GP.preprocessing (DfLayoffs sample_layoffs_bad_date, DfJobs sample_jobs)
      blank = (Returned (layoffs, jobs), blank) /\
    List.map (fun x => company (l_row x)) layoffs
    = [Some "Cedar"; Some "Birch"; Some "Acme"; Some "Acme"; Some "Dune"] /\
    StronglySorted
      (fun a b => Pd.date_leb (l_date a) (l_date b) = true) layoffs.
Proof.
  pose proof (GP_preprocessing_ok sample_layoffs_bad_date sample_jobs blank
                eq_refl) as Hrun.
  eexists _, _. split; [exact Hrun|]. split; [vm_compute; reflexivity|].
  destruct (GP_layoffs_sorted_by_date _ _ _ _ _ Hrun)
    as (lrows & _ & _ & Hsorted & _).
  exact Hsorted.
Defined.

(** ** Medians *)



Lemma in_present {V} (v : V) (vs : list (option V)) :
  In v (omap id vs) <-> In (Some v) vs.
Proof.
  rewrite <- !list_elem_of_In, list_elem_of_omap. split.
  - intros (o & Ho & Hv). cbn in Hv. now subst.
  - intros H. now exists (Some v).
Qed.









(** ** Counts of values *)






(** ** Pivot tables *)



Section PivotFacts.
Context {R C X V W : Type} `{EqDecision R} `{EqDecision C}.
Variable rleb : R -> R -> bool.
Variable cleb : C -> C -> bool.
Variable row : X -> option R.
Variable col : X -> option C.
Variable val : X -> option V.
Variable agg : list (option V) -> option W.







End PivotFacts.




Lemma filter_filter_and {X} (p q : X -> bool) (xs : list X) :
  List.filter p (List.filter q xs) = List.filter (fun x => p x && q x) xs.
Proof.
  induction xs as [|x xs IH]; [reflexivity|]. cbn.
  destruct (q x); cbn; rewrite ?andb_true_r, ?andb_false_r.
  - destruct (p x); now rewrite IH.
  - exact IH.
Qed.

Lemma filter_map_derive (p : layoff -> bool) (lrows : list layoff_row) :
  List.filter p (List.map derive_dates lrows)
  = List.map derive_dates (List.filter (fun x => p (derive_dates x)) lrows).
Proof.
  induction lrows as [|x l IH]; [reflexivity|]. cbn.
  destruct (p (derive_dates x)); cbn; now rewrite IH.
Qed.




(** ** Salaries by experience level *)

Lemma isin_Some {K} `{EqDecision K} (v : option K) (values : list K) :
  Pd.isin v values = true <-> exists k, v = Some k /\ In k values.
Proof.
  unfold Pd.isin. destruct v as [x|].
  - rewrite bool_decide_eq_true, list_elem_of_In. split.
    + intros H. exists x. auto.
    + intros (k & Hk & Hin). now injection Hk as ->.
  - split; [discriminate | intros (k & Hk & _); discriminate].
Qed.








(** ** Scatter groups and percentage boxes *)

Lemma value_counts_keys_NoDup {K} `{EqDecision K} (col : list (option K)) :
  List.NoDup (List.map fst (Pd.value_counts col)).
Proof.
  unfold Pd.value_counts.
  eapply Permutation_NoDup;
    [apply Permutation_map; symmetry; apply sort_values_desc_perm|].
  rewrite List.map_map. cbn [fst]. rewrite List.map_id. apply NoDup_unique.
Qed.

Lemma in_value_counts_keys {K} `{EqDecision K} (col : list (option K)) k :
  In k (List.map fst (Pd.value_counts col)) <-> In (Some k) col.
Proof.
  unfold Pd.value_counts.
  assert (Hp : Permutation
            (List.map fst
               (Pd.sort_values_desc Z.leb
                  (List.map (fun k => (k, Some (Pd.count_eq k col)))
                     (Pd.unique (omap id col)))))
            (Pd.unique (omap id col))).
  { rewrite (Permutation_map fst (sort_values_desc_perm Z.leb _)).
    rewrite List.map_map. cbn [fst]. now rewrite List.map_id. }
  split; intros Hin.
  - apply (Permutation_in _ Hp) in Hin. now apply in_unique, in_present in Hin.
  - apply (Permutation_in _ (Permutation_sym Hp)). now apply in_unique, in_present.
Qed.

(** The labels of the [n] most frequent values: at most [n], each once,
    each a value of the column. *)
Lemma top_labels {K} `{EqDecision K} (n : nat) (col : list (option K)) :
  let labels := Pd.index (Pd.head n (Pd.value_counts col)) in
  (length labels <= n)%nat /\ List.NoDup labels /\
  forall k, In k labels -> In (Some k) col.
Proof.
  unfold Pd.index, Pd.head. rewrite <- firstn_map. repeat split.
  - apply firstn_le_length.
  - apply (NoDup_head n), value_counts_keys_NoDup.
  - intros k Hk. apply (in_head n) in Hk. now apply in_value_counts_keys.
Qed.


Lemma state_funded_inputs :
  inputs state_funded sample_layoffs_funded sample_jobs.
Proof. split; reflexivity. Qed.

Lemma state_funded_run_gp :
  exists r s', GP.script state_funded = (Returned r, s').
Proof.
  apply (GP_script_returns _ _ _ state_funded_inputs). reflexivity.
Qed.

Lemma state_funded_run_gm :
  exists r s', GM.script state_funded = (Returned r, s').
Proof.
  apply (GM_script_returns _ _ _ state_funded_inputs); reflexivity.
Qed.


(** X20: the percentage box plots show at most eight industries.  In
    [project_gp.py] rows without industry or without percentage are
    dropped first: there are at most eight boxes, one per industry, none
    empty, none holding a missing value, and a box holds one value per
    layoff row of its industry that reports a percentage.  In
    [project_gm.py] the rows of at most eight industries are kept, a row
    of a kept industry also when its percentage is missing. *)
Theorem percentage_boxes_industries (s : state) (lrows : list layoff_row)
    (jrows : list job) :
  inputs s lrows jrows ->
  (forall r s', GP.script s = (Returned r, s') ->
     (length (GP.perc_boxes r) <= 8)%nat /\
     List.NoDup (List.map fst (GP.perc_boxes r)) /\
     forall ind vals, In (ind, vals) (GP.perc_boxes r) ->
       vals <> [] /\ Forall (fun v => v <> None) vals /\
       length vals
       = length (List.filter
                   (fun x => bool_decide (industry x = Some ind)
                             && Pd.notna (percentage_laid_off x)) lrows)) /\
  (forall r s', GM.script s = (Returned r, s') ->
     exists inds,
       (length inds <= 8)%nat /\ List.NoDup inds /\
       (forall i p, In (i, p) (GM.perc_data r) ->
          exists k, i = Some k /\ In k inds) /\
       (forall x k, In x lrows -> In k inds -> industry x = Some k ->
          In (Some k, percentage_laid_off x) (GM.perc_data r))).
Proof.
  intros Hi. split; intros r s' Hrun.
  - destruct (GP_script_image _ _ _ _ _ Hi Hrun) as (sx & Himg).
    destruct (GP_layoffs_fields _ _ _ _ _ Himg) as (_ & Hb & _).
    cbv zeta in Hb. rewrite Hb. clear Hb.
    set (perc_df := List.filter
           (fun x => Pd.notna (industry (l_row x))
                     && Pd.notna (percentage_laid_off (l_row x)))
           (GP_layoffs lrows)).
    destruct (top_labels 8 (List.map (fun x => industry (l_row x)) perc_df))
      as (Hlen & Hnd & Hcol).
    set (names := Pd.index (Pd.head 8 (Pd.value_counts
                    (List.map (fun x => industry (l_row x)) perc_df)))) in *.
    split; [now rewrite length_map|].
    split; [rewrite List.map_map; cbn [fst]; now rewrite List.map_id|].
    intros ind vals Hin. apply in_map_iff in Hin.
    destruct Hin as (ind' & Heq & Hind). injection Heq as -> <-.
    assert (Hrows : forall x,
              In x (Pd.group_rows (fun x => industry (l_row x)) ind
                      (List.filter
                         (fun x => Pd.isin (industry (l_row x)) names)
                         perc_df))
              <-> In x perc_df /\ industry (l_row x) = Some ind).
    { intros x. rewrite (in_group_rows String.leb), filter_In, isin_Some.
      split; [tauto|]. intros [Hx Hk]. repeat split; eauto. }
    split; [|split].
    + apply Hcol, in_map_iff in Hind. destruct Hind as (x & Hk & Hx).
      intros Hnil.
      assert (Hg : In x (Pd.group_rows (fun x => industry (l_row x)) ind
                           (List.filter
                              (fun x => Pd.isin (industry (l_row x)) names)
                              perc_df)))
        by now apply Hrows.
      apply (in_map (fun x => percentage_laid_off (l_row x))) in Hg.
      rewrite Hnil in Hg. destruct Hg.
    + apply List.Forall_forall. intros v Hv. apply in_map_iff in Hv.
      destruct Hv as (x & <- & Hx). apply Hrows in Hx.
      destruct Hx as [Hx _]. apply filter_In in Hx. destruct Hx as [_ Hc].
      destruct (percentage_laid_off (l_row x));
        [discriminate | now rewrite andb_false_r in Hc].
    + rewrite length_map. unfold Pd.group_rows, perc_df.
      rewrite !filter_filter_and.
      rewrite (Permutation_length
                 (filter_perm _ _ _ (GP_layoffs_perm lrows))).
      rewrite filter_map_derive, length_map. f_equal.
      apply List.filter_ext. intros x.
      change (l_row (derive_dates x)) with x.
      destruct (bool_decide (industry x = Some ind)) eqn:E; cbn [andb].
      * apply bool_decide_eq_true in E. rewrite E. cbn [Pd.notna andb].
        assert (Hisin : Pd.isin (Some ind) names = true)
          by (apply isin_Some; eauto).
        now rewrite Hisin.
      * reflexivity.
  - destruct (GM_script_image _ _ _ _ _ Hi Hrun) as (sx & Himg).
    destruct (GM_layoffs_fields _ _ _ _ _ Himg) as (_ & ->).
    destruct (top_labels 8
                (List.map (fun x => industry (l_row x))
                   (List.map derive_dates lrows)))
      as (Hlen & Hnd & Hcol).
    set (names := Pd.index (Pd.head 8 (Pd.value_counts
                    (List.map (fun x => industry (l_row x))
                       (List.map derive_dates lrows))))) in *.
    exists names. split; [exact Hlen|]. split; [exact Hnd|]. split.
    + intros i p Hin. apply in_map_iff in Hin.
      destruct Hin as (x & Heq & Hx). injection Heq as <- <-.
      apply filter_In in Hx. destruct Hx as [_ Hx].
      now apply isin_Some in Hx.
    + intros x k Hx Hk Hind. apply in_map_iff. exists (derive_dates x).
      change (l_row (derive_dates x)) with x. rewrite Hind.
      split; [reflexivity|]. apply filter_In. split; [now apply in_map|].
      change (l_row (derive_dates x)) with x. rewrite Hind.
      apply isin_Some. eauto.
Qed.

Lemma percentage_boxes_industries_witness :
  exists r s',
    GP.script state_funded = (Returned r, s') /\
    GP.perc_boxes r
    = [("Finance", [Some (1 # 4); Some (1 # 2)]);
       ("Retail", [Some (1 # 10)])] /\
    (length (GP.perc_boxes r) <= 8)%nat.
Proof.
  destruct state_funded_run_gp as (r & s' & Hrun).
  exists r, s'. split; [exact Hrun|].
  destruct (proj1 (percentage_boxes_industries _ _ _ state_funded_inputs)
              r s' Hrun) as (Hlen & _).
  split; [|exact Hlen].
  destruct (GP_script_image _ _ _ _ _ state_funded_inputs Hrun)
    as (sx & Himg).
  destruct (GP_layoffs_fields _ _ _ _ _ Himg) as (_ & Hb & _).
  rewrite Hb. vm_compute. reflexivity.
Defined.

(** ** Month labels *)







(** ** Conservation of the head counts *)






(** ** Running the scripts again, and one after the other *)















(** ** Rankings by median salary *)









(** ** What a completed run prints *)






